(* ===== verification/_CoqProject ===== *)
-Q . S2P
Prelude.v
JsRuntime.v
Scorer.v
CsvParser.v
Summarizer.v
App.v
View.v
