(* ===== verification/Prelude.v ===== *)
(** * A verified model of the Titanic survival predictor

    The repository is one React component, [src/src/components/TitanicPredictor.tsx].
    Around a page of markup it holds five pieces of logic, which this library models
    one file each:

    - the CSV reader ([parseCSV], lines 71-100, and [parseCSVLine], lines 102-120):
      it trims the text, splits it on line feeds, reads the header row with a plain
      [split(',')], splits every data row with a quote-aware scanner and turns each
      row into a JavaScript object keyed by header name, coercing five columns with
      [parseInt(v) || 0] and two with [v ? parseFloat(v) : null];
    - the scorer ([predictSurvival], lines 148-198): starting from [0.5] it adds or
      subtracts one constant per rule (sex, class, age, family size, fare) in IEEE
      double arithmetic, clamps with [Math.max(0, Math.min(1, score))] and reports
      [probability > 0.5];
    - the summariser ([calculateModelStats], lines 122-145): counts, survivors,
      deaths and the agreement rate of the scorer with the [Survived] labels;
    - the component state and its handlers ([useState] at lines 37-50, [loadData]
      at 53-69, the [onChange] handlers of the form and [handlePredict] at 200-211);
    - the render (lines 213-472): the loading screen, the statistics cards, the
      verdict with its percentage and the key factors read from the form.

    Files, in dependency order:
    - [Prelude] (this file): the scope [js_scope] with the strict-equality class
      [StrictEq] and its notation [===], the hint databases [titanic] and
      [titanic_rw], the tactics [case_ifs] and [solve_by_enum], and generic list
      and string lemmas.
    - [JsRuntime]: the part of the ECMAScript runtime the component calls, modelled
      from the language specification: numbers as Rocq's primitive binary64 floats
      (the kernel computes with them), truthiness and [||] ([or_num]),
      [Math.min]/[Math.max] with their NaN and signed-zero rules,
      [String.prototype.trim], [split] on a one-character separator, [parseInt]
      and [parseFloat] with correct rounding ([float_of_Z], [float_of_ratio]), and
      the rational a finite float denotes ([float_to_Q]), and the printing of
      numbers: [toFixed1] ([x.toFixed(1)]) and [number_to_string] (on NaN, the
      infinities and integers below 10^21, with [decimal_string]).  Section
      [ExactIntegers] proves that the Number value of an integer below 2^53 is
      finite, exact and truthy, and that a float comparing between 0 and 100
      denotes a rational between 0 and 100; the printing lemmas show that
      [parseInt] reads [decimal_string n] back as [n] and that [toFixed1] prints
      the nearest tenth.
    - [Scorer]: [Passenger] as the TypeScript interface (every field optional, as
      [Partial<Passenger>] allows; [Age] and [Fare] distinguish absent from
      [null]), [predictSurvival] statement by statement, the five rule outcomes
      [rules_of], the exact score in hundredths [exact_score] and the abstract
      contract of the spec [spec_rules].  The typeclass [SurvivalModel] (a
      prediction function whose verdict is [0.5 < probability]) is the interface
      the summariser is written against; [predictSurvival_model] is its instance.
    - [CsvParser]: [parseCSVLine] as a [fold_left] of the scanner step [line_step]
      over the characters, the object a row becomes ([gmap string jsval], the
      [any] object of the source) built by [assign_fields] through [js_set] (an
      assignment to the key [__proto__] runs the inherited setter and stores
      nothing), [parseCSV], and the cast of such an object to [Passenger].
    - [Summarizer]: [calculateModelStats] in a Section over any [SurvivalModel].
    - [App]: the component's state ([AppState]: the [useState] hooks), its
      events ([event]: the two outcomes of [loadData], the seven [onChange]
      handlers, the click on Predict), the step function [app_step] (while
      [loading] only the load outcome is accepted, afterwards only the form),
      the reachable states as an inductive relation [reachable] and the
      invariant [app_inv] proved for all of them by rule induction.
    - [View]: the render as a function [render] from [AppState] to [Screen]:
      [LoadingScreen], or a [Dashboard] with the optional [StatsPanel] (the
      texts of the four cards) and the [ResultPanel] (a placeholder, or the
      verdict's colour, headline, percentage text, bar width and the four key
      factors, which read the form's current input).

    What the theorems show (claims C1-C40 of the manifest).
    - Scorer: the probability is always a float in [0,1]; the float computation
      refines the exact decimal table of the spec (same verdict on every input,
      probability within 2^-53 of the exact value); on inputs where no present
      field is 0 or NaN the code meets the spec's contract; for every passenger
      a falsy fare or age (0, -0, NaN) gives the prediction of an absent one,
      because [||] replaces it by the default, so a fare of 0 skips the
      low-fare penalty and a newborn is no child ([fare_falsy_as_absent],
      [age_falsy_as_absent]); a woman is strictly more likely than a man and
      first class than any other, all else equal; switching the sex raises the
      probability by 0.60 up to rounding unless the clamp cuts a score, and
      then by at most 0.55 ([sex_gap_unless_clamped]).
    - CSV: printing plain or quoted fields and parsing them gives them back;
      every field of [parseCSVLine] is quote-free, and its fields joined with
      commas are the line without its double quotes; [parseCSV] yields one
      record per line feed of the trimmed text, each well typed for
      [Passenger], each column read by its header; with CRLF line ends the
      last header name keeps its CR and the last cell of every row is stored
      as raw text; a cell starting with no numeral's first character becomes
      NaN under [Age]/[Fare] and 0 under an integer column; an unmatched quote
      appends the rest of the line, commas included, to the open field; no
      record ever holds a [__proto__] property; an integer column holding a
      numeral below 2^53 stores exactly that integer.
    - Summariser: the accuracy is a float in [0,100] for every data set of 1
      to [max_rows] records, strictly increasing in the number of correct
      predictions at a fixed size, and 100 exactly when every prediction is
      correct; it is NaN exactly on an empty data set; records without a 0/1
      label are never counted correct, so a data set with none shows 0.
    - App: in every reachable state the prediction shown is [predictSurvival] of
      some form input and the statistics are those of the loaded data; a failed
      load shows none; the load ends the loading phase; any run without an
      [onChange] event keeps the initial form and can only show the verdict
      0.1 / did not survive; edits of different fields commute.
    - View: on every page of a session the headline and its colour agree with
      the percentage printed beside it, a whole percentage [pct.0%] (the exact
      value of the spec's table); the count cards print numerals that
      [parseInt] reads back as the counts, and after every successful load the
      Total card prints the number of line feeds of the trimmed text; for 1 to
      [max_rows] records the accuracy card prints the accuracy to the nearest
      tenth; from every state some events show the verdict for the current
      form (liveness); the key factors call every age of 0 a child although
      the scorer scores it as 30, and after every edit they follow the new
      input while the verdict stays; a data file with no row shows [NaN%].
    - CSV and header: on a line with no double quote [parseCSVLine] is the
      plain [split(',')] the header goes through; on every line the plain split
      has one more piece per comma inside quotes, so a quoted header name with
      commas shifts every later column name.

    Numbers and strings.  A JavaScript number is a binary64 float: the model uses
    [PrimFloat.float], whose operations the kernel evaluates with IEEE semantics,
    and the statements about all passengers are reduced to the 162 rule outcomes,
    which are checked by evaluation.  The float bound on the accuracy is checked
    by evaluation for every pair of counts up to [max_rows] = 2224, the number of
    people aboard the ship, so it covers every subset of the passenger list (the
    data files have 418 and 891 rows); so is the strict monotonicity of the
    accuracy between consecutive counts ([check_monotone]), which float [<]
    being transitive on non-negative floats extends to any two counts.  A JavaScript string is a sequence of
    UTF-16 code units; the model uses [String.string], sequences of 8-bit
    characters, so the text it covers is the Latin-1 range (the whitespace set
    of [trim] is restricted accordingly: TAB, LF, VT, FF, CR, space, NBSP).
    Lengths and counts are [nat]: JavaScript arrays are shorter than 2^32, well
    inside the range where the Number value of a count is exact.

    Not modelled: the static markup of the render (headings, icons, class
    names, the About section: the same in every state), the [fetch] transport
    (its outcome is the [LoadSucceeded] or [LoadFailed] event), React's
    scheduling of state updates (each handler is one atomic state transition),
    and Number::toString on fractions and on magnitudes of 10^21 and more
    (shortest round-trip digits; [number_to_string] returns [None] there, and
    the only number the page prints with it, the family size, is an integer or
    NaN).
    Not proved: the accuracy bounds beyond [max_rows] records (they need the
    monotonicity of rounding in general), and the exactness of [parseFloat] on
    decimal numerals. *)

From Stdlib Require Import ZArith List String Ascii Bool Lia.
Import ListNotations.

Declare Scope js_scope.
Delimit Scope js_scope with js.

(** JavaScript's strict equality [===], at the types the component compares. *)
Class StrictEq (A : Type) := strict_eq : A -> A -> bool.
Notation "x === y" := (strict_eq x y) (at level 70, no associativity) : js_scope.

#[export] Instance StrictEq_string : StrictEq string := String.eqb.

(** Comparing with a possibly-undefined property: [undefined === v] is false for
    every defined [v]. *)
#[export] Instance StrictEq_option {A} `{StrictEq A} : StrictEq (option A) :=
  fun x y => match x, y with
             | Some a, Some b => strict_eq a b
             | None, None => true
             | _, _ => false
             end.

Create HintDb titanic discriminated.
Create Rewrite HintDb titanic_rw.

(** Case analysis on every [if] of the goal, innermost first. *)
Ltac case_ifs :=
  repeat match goal with
         | |- context [if ?b then _ else _] =>
             lazymatch b with
             | context [if _ then _ else _] => fail
             | _ => destruct b eqn:?
             end
         end.

(** A statement over a finite enumeration, closed by evaluating a boolean check. *)
Ltac solve_by_enum H := apply H; vm_compute; reflexivity.

(** ** Generic lemmas on lists *)

Lemma length_filter_le {A} (f : A -> bool) (l : list A) :
  List.length (filter f l) <= List.length l.
Proof. induction l as [|a l IH]; simpl; [lia|]. destruct (f a); simpl; lia. Qed.

Lemma forallb_In_true {A} (f : A -> bool) (l : list A) (x : A) :
  forallb f l = true -> In x l -> f x = true.
Proof. rewrite forallb_forall. auto. Qed.

#[export] Hint Resolve length_filter_le : titanic.

(** ** Generic lemmas on strings *)

Lemma list_ascii_of_string_append (s t : string) :
  list_ascii_of_string (s ++ t) = (list_ascii_of_string s ++ list_ascii_of_string t)%list.
Proof. induction s as [|c s IH]; simpl; [reflexivity|]. now rewrite IH. Qed.

Lemma string_of_list_ascii_app (l m : list ascii) :
  string_of_list_ascii (l ++ m)%list = (string_of_list_ascii l ++ string_of_list_ascii m)%string.
Proof. induction l as [|c l IH]; simpl; [reflexivity|]. now rewrite IH. Qed.

#[export] Hint Rewrite list_ascii_of_string_append string_of_list_ascii_app
  list_ascii_of_string_of_list_ascii string_of_list_ascii_of_string : titanic_rw.

Lemma string_append_assoc (s t u : string) : ((s ++ t) ++ u)%string = (s ++ (t ++ u))%string.
Proof. induction s as [|c s IH]; simpl; [reflexivity|]. now rewrite IH. Qed.

Lemma string_append_empty_r (s : string) : (s ++ EmptyString)%string = s.
Proof. induction s as [|c s IH]; simpl; [reflexivity|]. now rewrite IH. Qed.

Lemma length_filter_mono {A} (f g : A -> bool) (l : list A) :
  (forall x, f x = true -> g x = true) ->
  List.length (filter f l) <= List.length (filter g l).
Proof.
  intros H. induction l as [|x l IH]; cbn; [lia|].
  destruct (f x) eqn:Ef; [rewrite (H x Ef); cbn; lia|]. destruct (g x); cbn; lia.
Qed.

Lemma length_list_ascii_of_string (s : string) :
  List.length (list_ascii_of_string s) = String.length s.
Proof. induction s as [|c s IH]; simpl; [reflexivity|]. now rewrite IH. Qed.

Lemma string_length_append (s t : string) :
  String.length (s ++ t) = String.length s + String.length t.
Proof. induction s as [|c s IH]; simpl; [reflexivity|]. now rewrite IH. Qed.

#[export] Hint Rewrite string_append_assoc string_append_empty_r : titanic_rw.
