(* ===== verification/JsRuntime.v ===== *)
(** * The ECMAScript runtime the component relies on

    The component calls a handful of built-ins of the language: numbers are IEEE
    binary64 values, [||] tests truthiness, [Math.min]/[Math.max] clamp,
    [String.prototype.trim], [split] and [replace] reshape text, [parseInt]
    and [parseFloat] read numbers, and [toFixed] and Number::toString print
    them.  They are not code of the repository: they are
    modelled here from the ECMAScript specification (the sections are named at
    each definition), so that the component's own code can be translated line by
    line on top of them.  Strings are [String.string] (the Latin-1 range of
    UTF-16 code units, see the header of [Prelude]). *)

From Stdlib Require Import ZArith List String Ascii Bool Lia QArith Qround Qabs Lqa Floats.
From S2P Require Import Prelude.
Import ListNotations SpecFloat.

#[local] Set Warnings "-inexact-float".

(** ** Values *)

(** A property value of the object [parseCSV] builds ([const passenger: any]):
    a number, a string or [null].  An absent property ([undefined]) is the
    absence of the key in the object. *)
Inductive jsval : Type :=
| JsNull
| JsNum (f : float)
| JsStr (s : string).

(** [===] on numbers is IEEE equality: NaN differs from itself, [+0 === -0]. *)
#[export] Instance StrictEq_float : StrictEq float := PrimFloat.eqb.

(** ToBoolean (ECMA-262 7.1.2) on numbers and strings. *)
Definition truthy_num (f : float) : bool := negb (is_zero f || is_nan f).
Definition truthy_str (s : string) : bool := negb (String.eqb s EmptyString).

(** [x || d] where [x] is a number that may be [null] or [undefined] ([None]). *)
Definition or_num (x : option float) (d : float) : float :=
  match x with
  | Some f => if truthy_num f then f else d
  | None => d
  end.

(** ** Math.min, Math.max (ECMA-262 21.3.2.24-25): NaN is absorbing, and
    [-0] is smaller than [+0]. *)
Definition js_min (x y : float) : float :=
  if is_nan x || is_nan y then nan
  else if PrimFloat.ltb x y then x
  else if PrimFloat.ltb y x then y
  else if get_sign x then x else y.

Definition js_max (x y : float) : float :=
  if is_nan x || is_nan y then nan
  else if PrimFloat.ltb x y then y
  else if PrimFloat.ltb y x then x
  else if get_sign x then y else x.

(** ** Numbers from mathematical values *)

(** The Number value for an integer (ECMA-262 6.1.6.1, "the Number value for
    x": round to nearest, ties to even). *)
Definition float_of_Z (z : Z) : float :=
  SF2Prim (SpecFloat.binary_normalize prec emax z 0 false).

(** The Number value of the positive rational [p / q], correctly rounded: the
    division of the IEEE specification applied to the exact operands. *)
Definition float_of_ratio (p q : positive) : float :=
  SF2Prim (let '(mz, ez, lz) := SFdiv_core_binary prec emax (Zpos p) 0 (Zpos q) 0 in
           binary_round_aux prec emax false mz ez lz).

(** The Number value of [m * 10^k] for a natural [m]. *)
Definition float_of_decimal (m k : Z) : float :=
  match m with
  | Zpos p =>
      if (0 <=? k)%Z then float_of_Z (m * 10 ^ k)
      else float_of_ratio p (Z.to_pos (10 ^ (- k)))
  | _ => zero
  end.

(** A finite float as the rational it denotes; [None] for infinities and NaN. *)
Definition float_to_Q (f : float) : option Q :=
  match Prim2SF f with
  | S754_zero _ => Some 0%Q
  | S754_finite s m e =>
      let mag := if (0 <=? e)%Z then inject_Z (Zpos m * 2 ^ e) else (Zpos m # Z.to_pos (2 ^ (- e))) in
      Some (if s then Qopp mag else mag)
  | _ => None
  end.

(** ** Strings *)

(** WhiteSpace and LineTerminator code points (ECMA-262 12.2, 12.3) in the
    Latin-1 range: TAB, LF, VT, FF, CR, SPACE, NBSP. *)
Definition is_js_space (c : ascii) : bool :=
  existsb (Nat.eqb (nat_of_ascii c)) [9; 10; 11; 12; 13; 32; 160]%nat.

Fixpoint drop_spaces (l : list ascii) : list ascii :=
  match l with
  | c :: r => if is_js_space c then drop_spaces r else l
  | [] => []
  end.

(** [String.prototype.trim] (ECMA-262 22.1.3.32). *)
Definition js_trim (s : string) : string :=
  string_of_list_ascii (rev (drop_spaces (rev (drop_spaces (list_ascii_of_string s))))).

(** [s.split(sep)] for a one-character separator (ECMA-262 22.1.3.23): the
    pieces between separators; the empty string gives one empty piece. *)
Fixpoint js_split (sep : ascii) (s : string) : list string :=
  match s with
  | EmptyString => [EmptyString]
  | String c r =>
      let rest := js_split sep r in
      if Ascii.eqb c sep then EmptyString :: rest
      else match rest with
           | f :: fs => String c f :: fs
           | [] => [String c EmptyString]
           end
  end.

(** [s.replace(/c/g, ...)] with the empty replacement: every [c] removed. *)
Fixpoint remove_char (c : ascii) (s : string) : string :=
  match s with
  | EmptyString => EmptyString
  | String d r => if Ascii.eqb d c then remove_char c r else String d (remove_char c r)
  end.

(** ** parseInt and parseFloat *)

Definition digit_value (c : ascii) : Z :=
  (let n := Z.of_nat (nat_of_ascii c) in
  if (48 <=? n) && (n <=? 57) then n - 48
  else if (97 <=? n) && (n <=? 122) then n - 87
  else if (65 <=? n) && (n <=? 90) then n - 55
  else 99)%Z.

(** The longest prefix of digits of radix [r], and what follows it. *)
Fixpoint span_digits (r : Z) (l : list ascii) : list Z * list ascii :=
  match l with
  | c :: rest =>
      if (digit_value c <? r)%Z
      then let '(ds, tl) := span_digits r rest in (digit_value c :: ds, tl)
      else ([], l)
  | [] => ([], [])
  end.

Definition Z_of_digits (r : Z) (ds : list Z) : Z :=
  fold_left (fun acc d => acc * r + d)%Z ds 0%Z.

Definition char_is (c : ascii) (n : nat) : bool := Nat.eqb (nat_of_ascii c) n.

(** An optional sign: [true] for [-]. *)
Definition take_sign (l : list ascii) : bool * list ascii :=
  match l with
  | c :: r => if char_is c 45 then (true, r) else if char_is c 43 then (false, r) else (false, l)
  | [] => (false, [])
  end.

(** [parseInt(string)] with no radix (ECMA-262 19.2.5): leading white space, a
    sign, a [0x]/[0X] prefix selecting radix 16, the longest run of digits; NaN
    when there is none; the Number value of the digits, negated for [-] (so
    [parseInt("-0")] is [-0]).  Integers of more than 20 digits are rounded
    exactly here, where the specification lets an engine approximate. *)
Definition parseInt (s : string) : float :=
  let '(neg, l) := take_sign (drop_spaces (list_ascii_of_string s)) in
  let '(r, l) := match l with
                 | c0 :: c1 :: rest =>
                     if char_is c0 48 && (char_is c1 120 || char_is c1 88) then (16%Z, rest)
                     else (10%Z, l)
                 | _ => (10%Z, l)
                 end in
  match span_digits r l with
  | ([], _) => nan
  | (ds, _) => let v := float_of_Z (Z_of_digits r ds) in if neg then (- v)%float else v
  end.

(** The exponent part [e], [E] with an optional sign and at least one digit;
    anything else is not part of the numeral. *)
Definition exponent_part (l : list ascii) : Z :=
  match l with
  | c :: rest =>
      if char_is c 101 || char_is c 69 then
        let '(neg, rest') := take_sign rest in
        match span_digits 10 rest' with
        | ([], _) => 0%Z
        | (ds, _) => if neg then (- Z_of_digits 10 ds)%Z else Z_of_digits 10 ds
        end
      else 0%Z
  | [] => 0%Z
  end.

Definition infinity_chars : list ascii := list_ascii_of_string "Infinity".

Fixpoint is_prefix (p l : list ascii) : bool :=
  match p, l with
  | [], _ => true
  | c :: p', d :: l' => Ascii.eqb c d && is_prefix p' l'
  | _ :: _, [] => false
  end.

(** [parseFloat(string)] (ECMA-262 19.2.4): leading white space, then the
    longest prefix that is a StrDecimalLiteral (a sign, [Infinity], or digits
    with an optional fraction and exponent, at least one digit in all); NaN when
    there is none.  The value is the exact decimal correctly rounded, negated
    for [-]. *)
Definition parseFloat (s : string) : float :=
  let '(neg, l) := take_sign (drop_spaces (list_ascii_of_string s)) in
  let sgn v := if neg then (- v)%float else v in
  if is_prefix infinity_chars l then sgn infinity
  else
    let '(d1, l1) := span_digits 10 l in
    let '(d2, l2) := match l1 with
                     | c :: rest => if char_is c 46 then span_digits 10 rest else ([], l1)
                     | [] => ([], [])
                     end in
    match d1 ++ d2 with
    | [] => nan
    | ds => sgn (float_of_decimal (Z_of_digits 10 ds)
                                  (exponent_part l2 - Z.of_nat (List.length d2))%Z)
    end.

(** ** Numbers to strings *)

(** The character of a decimal digit. *)
Definition digit_char (d : Z) : ascii := ascii_of_nat (48 + Z.to_nat d).

Definition digits_string (ds : list Z) : string := string_of_list_ascii (map digit_char ds).

(** The decimal digits of [n >= 0], least significant first, at most [fuel]
    of them. *)
Fixpoint digits_rev (fuel : nat) (n : Z) : list Z :=
  match fuel with
  | O => []
  | S f => (n mod 10)%Z :: (if (n <? 10)%Z then [] else digits_rev f (n / 10)%Z)
  end.

(** The decimal digits of [n >= 0], most significant first, with no leading
    zero ([[0]] for zero).  A number has no more decimal digits than bits, so
    [1 + log2 n] steps are enough ([decimal_digits_spec]). *)
Definition decimal_digits (n : Z) : list Z := rev (digits_rev (S (Z.to_nat (Z.log2 n))) n).

Definition decimal_string (n : Z) : string := digits_string (decimal_digits n).

(** Number::toString (ECMA-262 6.1.6.1.20) of NaN, the infinities and the
    integers of magnitude below 10^21: the sign and the decimal digits ([-0]
    prints as [0]).  [None] for the other numbers (fractions, and magnitudes
    of 10^21 and more, printed in shortest round-trip or exponent form), which
    the model leaves out. *)
Definition number_to_string (x : float) : option string :=
  if is_nan x then Some "NaN"%string
  else match float_to_Q x with
  | None => Some (if PrimFloat.ltb x 0 then "-Infinity" else "Infinity")%string
  | Some q =>
      let n := (Qnum q / Zpos (Qden q))%Z in
      if ((Qnum q mod Zpos (Qden q) =? 0) && (Z.abs n <? 10 ^ 21))%Z then
        Some ((if (n <? 0)%Z then "-" else EmptyString) ++ decimal_string (Z.abs n))%string
      else None
  end.

(** The digits of [n >= 0] with a point before the last one, after a [0] put
    in front of a single digit (steps 10.b-c of toFixed, one fraction digit). *)
Definition point_one (n : Z) : string :=
  let m := decimal_string n in
  let k := String.length m in
  if (k <=? 1)%nat then ("0." ++ m)%string
  else (substring 0 (k - 1) m ++ "." ++ substring (k - 1) 1 m)%string.

(** [x.toFixed(1)] (ECMA-262 21.1.3.3): NaN and the infinities as
    Number::toString; otherwise a [-] when the value is negative, then
    [n / 10] for the integer [n] nearest to [10 |x|], the larger one on a tie.
    [None] when [|x| >= 10^21], printed by Number::toString, which the model
    leaves out. *)
Definition toFixed1 (x : float) : option string :=
  if is_nan x then Some "NaN"%string
  else match float_to_Q x with
  | None => Some (if PrimFloat.ltb x 0 then "-Infinity" else "Infinity")%string
  | Some q =>
      if Qle_bool (inject_Z (10 ^ 21)) (Qabs q) then None
      else Some ((if Qle_bool 0 q then EmptyString else "-") ++
                 point_one (Qfloor (Qabs q * 10 + (1 # 2))))%string
  end.

(** ** Facts about numbers *)

(** A float compared with a rational bound, as a boolean the kernel evaluates. *)
Definition float_in_Q (lo hi : Q) (f : float) : bool :=
  match float_to_Q f with
  | Some q => Qle_bool lo q && Qle_bool q hi
  | None => false
  end.

Lemma float_in_Q_spec lo hi f :
  float_in_Q lo hi f = true -> exists q, float_to_Q f = Some q /\ (lo <= q <= hi)%Q.
Proof.
  unfold float_in_Q. destruct (float_to_Q f) as [q|]; [|discriminate].
  rewrite andb_true_iff, !Qle_bool_iff. eauto.
Qed.

(** The only floats equal to zero are [+0] and [-0]. *)
Lemma is_zero_cases (f : float) : is_zero f = true -> f = zero \/ f = neg_zero.
Proof.
  unfold is_zero. rewrite eqb_spec. intros H.
  rewrite <- (SF2Prim_Prim2SF f).
  destruct (Prim2SF f) as [[]|[]| |[] m e]; try discriminate H; auto.
Qed.

(** NaN is a single value of [float]. *)
Lemma is_nan_eq (f : float) : is_nan f = true -> f = nan.
Proof.
  unfold is_nan. rewrite eqb_spec. intros H.
  rewrite <- (SF2Prim_Prim2SF f).
  destruct (Prim2SF f) as [[]|[]| |[] m e] eqn:E; cbn in H; try discriminate H; auto.
  - rewrite Z.compare_refl, Pcompare_refl in H. discriminate.
  - rewrite Z.compare_refl, Pcompare_refl in H. discriminate.
Qed.

(** [x || d] keeps a truthy number. *)
Lemma or_num_truthy (f d : float) : truthy_num f = true -> or_num (Some f) d = f.
Proof. unfold or_num. now intros ->. Qed.

(** [x || 0] is [x] for every number but NaN and [-0]. *)
Lemma or_num_zero_default (f : float) :
  is_nan f = false -> negb (is_zero f && get_sign f) = true -> or_num (Some f) 0 = f.
Proof.
  unfold or_num, truthy_num. intros Hnan Hsign.
  destruct (is_zero f) eqn:Hz; [|now rewrite Hnan].
  destruct (is_zero_cases f Hz) as [-> | ->]; [reflexivity | discriminate Hsign].
Qed.

(** [x || d] is never NaN when the default is not. *)
Lemma or_num_not_nan (x : option float) (d : float) :
  is_nan d = false -> is_nan (or_num x d) = false.
Proof.
  intros Hd. destruct x as [f|]; cbn; [|exact Hd].
  destruct (truthy_num f) eqn:T; [|exact Hd].
  unfold truthy_num in T. apply negb_true_iff, orb_false_iff in T as [_ T]. exact T.
Qed.

(** *** Integers below 2^53 are exact Numbers

    Below 2^53 the rounding of [binary_normalize] only shifts the integer left
    to a 53-bit mantissa, so the Number value is exact and finite. *)

Section ExactIntegers.
Local Open Scope Z_scope.

Lemma digits2_pos_iter_xO (p k : positive) :
  SpecFloat.digits2_pos (Pos.iter xO p k) = (SpecFloat.digits2_pos p + k)%positive.
Proof.
  induction k as [|k IH] using Pos.peano_ind.
  - cbn. now rewrite Pos.add_1_r.
  - rewrite Pos.iter_succ. cbn [SpecFloat.digits2_pos]. rewrite IH. lia.
Qed.
Lemma iter_xO_value (p k : positive) : Zpos (Pos.iter xO p k) = Zpos p * 2 ^ Zpos k.
Proof.
  induction k as [|k IH] using Pos.peano_ind.
  - cbn. lia.
  - rewrite Pos.iter_succ, Pos2Z.inj_succ, Z.pow_succ_r by lia.
    change (Zpos (xO (Pos.iter xO p k))) with (2 * Zpos (Pos.iter xO p k)). rewrite IH. lia.
Qed.
Lemma pow2_pred (d : Z) : 1 <= d -> 2 ^ d = 2 * 2 ^ (d - 1).
Proof. intros Hd. rewrite <- Z.pow_succ_r by lia. f_equal. lia. Qed.

(** [digits2_pos p] is the bit length of [p]. *)
Lemma digits2_pos_bounds (p : positive) :
  2 ^ (Zpos (SpecFloat.digits2_pos p) - 1) <= Zpos p < 2 ^ Zpos (SpecFloat.digits2_pos p).
Proof.
  induction p as [p IH|p IH|]; cbn [SpecFloat.digits2_pos]; [| |cbn; lia];
    rewrite Pos2Z.inj_succ; set (D := Zpos (SpecFloat.digits2_pos p)) in *;
    assert (HD : 1 <= D) by (subst D; lia);
    replace (Z.succ D - 1) with D by lia; rewrite (pow2_pred (Z.succ D)) by lia;
    replace (Z.succ D - 1) with D by lia; rewrite (pow2_pred D) in * by lia; lia.
Qed.

(** A mantissa of exactly 53 bits at a normal exponent is not shifted. *)
Lemma shr_fexp_canonical (m : positive) (e : Z) :
  digits2_pos m = 53%positive -> -1074 <= e ->
  shr_fexp prec emax (Zpos m) e loc_Exact = ({| shr_m := Zpos m; shr_r := false; shr_s := false |}, e).
Proof.
  intros Hd He. unfold shr_fexp, Zdigits2. rewrite Hd.
  unfold fexp, emin, FloatOps.prec, FloatOps.emax.
  replace (Z.max (53 + e - 53) (3 - 1024 - 53) - e) with 0 by lia. reflexivity.
Qed.

(** ... and is not rounded. *)
Lemma binary_round_aux_canonical (s : bool) (m : positive) (e : Z) :
  digits2_pos m = 53%positive -> -1074 <= e <= 971 ->
  binary_round_aux prec emax s (Zpos m) e loc_Exact = S754_finite s m e.
Proof.
  intros Hd He. unfold binary_round_aux. rewrite shr_fexp_canonical by lia.
  cbn [shr_m loc_of_shr_record round_nearest_even].
  rewrite shr_fexp_canonical by lia. cbn [shr_m].
  unfold FloatOps.prec, FloatOps.emax.
  replace (e <=? 1024 - 53) with true by (symmetry; apply Z.leb_le; lia). reflexivity.
Qed.

Lemma float_of_Z_finite (p : positive) :
  Zpos p < 2 ^ 53 ->
  exists m e, binary_normalize prec emax (Zpos p) 0 false = S754_finite false m e /\
    digits2_pos m = 53%positive /\ -52 <= e <= 0 /\ Zpos m = Zpos p * 2 ^ (- e).
Proof.
  intros Hp. pose proof (digits2_pos_bounds p) as [Hlo Hhi].
  set (d := digits2_pos p) in *.
  assert (Hd : Zpos d <= 53).
  { destruct (Z.le_gt_cases (Zpos d) 53) as [|Hgt]; [assumption|].
    assert (2 ^ 53 <= 2 ^ (Zpos d - 1)) by (apply Z.pow_le_mono_r; lia). lia. }
  cbn [binary_normalize]. unfold binary_round, shl_align. fold d.
  unfold fexp, emin, FloatOps.prec, FloatOps.emax.
  replace (Z.max (Zpos d + 0 - 53) (3 - 1024 - 53)) with (Zpos d - 53) by lia.
  rewrite Z.sub_0_r.
  destruct (Zpos d - 53) eqn:E; [| lia |].
  - exists p, 0. rewrite binary_round_aux_canonical by (unfold d in *; lia).
    repeat split; try lia.
  - exists (Pos.iter xO p p0), (Zneg p0).
    rewrite binary_round_aux_canonical; [repeat split; try lia | |];
      rewrite ?digits2_pos_iter_xO, ?iter_xO_value; fold d; try lia.
    change (- Zneg p0) with (Zpos p0). reflexivity.
Qed.

Lemma float_of_Z_spec (p : positive) :
  Zpos p < 2 ^ 53 ->
  exists m e, Prim2SF (float_of_Z (Zpos p)) = S754_finite false m e /\
    -52 <= e <= 0 /\ Zpos m = Zpos p * 2 ^ (- e).
Proof.
  intros Hp. destruct (float_of_Z_finite p Hp) as (m & e & Hn & Hd & He & Hm).
  exists m, e. unfold float_of_Z. rewrite Hn, FloatAxioms.Prim2SF_SF2Prim; [auto|].
  cbn. unfold bounded, canonical_mantissa, fexp, emin, FloatOps.prec, FloatOps.emax. rewrite Hd.
  apply andb_true_iff; split; [apply Z.eqb_eq | apply Z.leb_le]; lia.
Qed.

(** The Number value of an integer below 2^53 denotes it exactly. *)
Lemma float_of_Z_exact (z : Z) :
  0 <= z < 2 ^ 53 -> exists q, float_to_Q (float_of_Z z) = Some q /\ (q == inject_Z z)%Q.
Proof.
  intros Hz. destruct z as [|p|p]; [exists 0%Q; split; reflexivity | | lia].
  destruct (float_of_Z_spec p (proj2 Hz)) as (m & e & HS & He & Hm).
  unfold float_to_Q. rewrite HS. eexists; split; [reflexivity|].
  destruct (0 <=? e) eqn:E.
  - apply Z.leb_le in E. replace e with 0 in * by lia. unfold Qeq. cbn [Qnum Qden inject_Z]. lia.
  - unfold Qeq. cbn [Qnum Qden inject_Z]. rewrite Z2Pos.id by (apply Z.pow_pos_nonneg; lia). lia.
Qed.

(** ... and is truthy. *)
Lemma float_of_Z_truthy (z : Z) : 0 < z < 2 ^ 53 -> truthy_num (float_of_Z z) = true.
Proof.
  intros Hz. destruct z as [|p|p]; try lia.
  destruct (float_of_Z_spec p (proj2 Hz)) as (m & e & HS & _).
  unfold truthy_num, is_zero, is_nan. rewrite !FloatAxioms.eqb_spec, HS.
  cbn. rewrite Z.compare_refl, Pos.compare_refl. reflexivity.
Qed.

(** A valid mantissa has at most 53 bits. *)
Lemma valid_mantissa_lt (s : bool) (m : positive) (e : Z) :
  valid_binary prec emax (S754_finite s m e) = true -> Zpos m < 2 ^ 53.
Proof.
  intros H. cbn [valid_binary] in H.
  unfold bounded, canonical_mantissa, fexp, emin, FloatOps.prec, FloatOps.emax in H.
  apply andb_true_iff in H as [H _]. apply Z.eqb_eq in H.
  pose proof (digits2_pos_bounds m) as [_ Hhi].
  apply Z.lt_le_trans with (2 ^ Zpos (digits2_pos m)); [exact Hhi|].
  apply Z.pow_le_mono_r; lia.
Qed.

(** The mantissa test of [SFleb] at equal exponents. *)
Lemma compare_cont_le (m n : positive) :
  match PosDef.Pos.compare_cont Eq m n with Gt => false | _ => true end = true -> Zpos m <= Zpos n.
Proof.
  intros H. destruct (PosDef.Pos.compare_cont Eq m n) eqn:Hc; try discriminate H.
  - apply Pos.compare_eq in Hc. subst. lia.
  - assert (H2 : Zpos m < Zpos n) by exact Hc. lia.
Qed.

(** A float that compares as [0 <= x <= 100] denotes a rational in [0, 100]. *)
Lemma leb_percent_Q (x : float) :
  PrimFloat.leb 0 x = true -> PrimFloat.leb x 100 = true ->
  exists q, float_to_Q x = Some q /\ (0 <= q <= 100)%Q.
Proof.
  rewrite !FloatAxioms.leb_spec. pose proof (FloatAxioms.Prim2SF_valid x) as Hv.
  replace (Prim2SF 100) with (S754_finite false 7036874417766400 (-46)) by (vm_compute; reflexivity).
  replace (Prim2SF 0) with (S754_zero false) by (vm_compute; reflexivity).
  unfold float_to_Q. intros H0 H100.
  destruct (Prim2SF x) as [s|[]| |[] m e]; cbv [SFleb SFcompare] in H0, H100; try discriminate.
  - exists 0%Q. split; [reflexivity | split; discriminate].
  - apply valid_mantissa_lt in Hv. change (2 ^ 53) with 9007199254740992 in Hv.
    assert (Hm : e <= -47 \/ (e = -46 /\ Zpos m <= 7036874417766400)).
    { revert H100. destruct (Z.compare_spec e (-46)) as [->|Hlt|Hgt]; intros H100;
        [right | left; lia | discriminate].
      split; [reflexivity | exact (compare_cont_le _ _ H100)]. }
    replace (0 <=? e) with false by (symmetry; apply Z.leb_gt; lia).
    eexists; split; [reflexivity|]. unfold Qle. cbn [Qnum Qden].
    rewrite Z2Pos.id by (apply Z.pow_pos_nonneg; lia).
    assert (H46 : 2 ^ 46 <= 2 ^ (- e)) by (apply Z.pow_le_mono_r; lia).
    change (2 ^ 46) with 70368744177664 in H46.
    destruct Hm as [He | [-> Hm]]; split; try lia.
    assert (2 * 2 ^ 46 <= 2 ^ (- e)).
    { rewrite <- Z.pow_succ_r by lia. apply Z.pow_le_mono_r; lia. }
    lia.
Qed.

(** The order [SFltb] puts on two positive finite floats: exponent first,
    then mantissa. *)
Lemma sf_lt_pos_spec (e1 e2 : Z) (m1 m2 : positive) :
  match match (e1 ?= e2) with Eq => PosDef.Pos.compare_cont Eq m1 m2 | Lt => Lt | Gt => Gt end with
  | Lt => true | _ => false end = true <-> (e1 < e2 \/ (e1 = e2 /\ Zpos m1 < Zpos m2)).
Proof.
  split.
  - destruct (Z.compare_spec e1 e2) as [->|H|H]; intros E; [|left; exact H|discriminate].
    right. split; [reflexivity|]. destruct (PosDef.Pos.compare_cont Eq m1 m2) eqn:Hc; try discriminate.
    exact Hc.
  - intros [H|[-> H]].
    + apply Z.compare_lt_iff in H. now rewrite H.
    + rewrite Z.compare_refl. change (PosDef.Pos.compare_cont Eq m1 m2) with (Zpos m1 ?= Zpos m2).
      apply Z.compare_lt_iff in H. now rewrite H.
Qed.

(** [<] is transitive on floats from a non-negative one on. *)
Lemma ltb_trans_nonneg (x y z : float) :
  PrimFloat.leb 0 x = true -> PrimFloat.ltb x y = true -> PrimFloat.ltb y z = true ->
  PrimFloat.ltb x z = true.
Proof.
  rewrite FloatAxioms.leb_spec, !FloatAxioms.ltb_spec.
  replace (Prim2SF 0) with (S754_zero false) by (vm_compute; reflexivity).
  destruct (Prim2SF x) as [[]|[]| |[] m1 e1], (Prim2SF y) as [[]|[]| |[] m2 e2],
    (Prim2SF z) as [[]|[]| |[] m3 e3]; cbv [SFleb SFltb SFcompare]; intros H0 H1 H2;
    try discriminate; try reflexivity.
  apply sf_lt_pos_spec in H1, H2. apply sf_lt_pos_spec. lia.
Qed.

Lemma ltb_irrefl (x : float) : PrimFloat.ltb x x = false.
Proof.
  rewrite FloatAxioms.ltb_spec. destruct (Prim2SF x) as [[]|[]| |[] m e]; cbv [SFltb SFcompare];
    try reflexivity; rewrite Z.compare_refl;
    change (PosDef.Pos.compare_cont Eq m m) with (Pos.compare m m); rewrite Pos.compare_refl; reflexivity.
Qed.

(** A float that is at least 0 is not NaN. *)
Lemma leb0_not_nan (x : float) : PrimFloat.leb 0 x = true -> is_nan x = false.
Proof.
  rewrite FloatAxioms.leb_spec. unfold is_nan. rewrite FloatAxioms.eqb_spec.
  replace (Prim2SF 0) with (S754_zero false) by (vm_compute; reflexivity).
  destruct (Prim2SF x) as [[]|[]| |[] m e]; cbv [SFleb SFeqb SFcompare]; intros H;
    try discriminate; rewrite ?Z.compare_refl; try reflexivity.
  change (PosDef.Pos.compare_cont Eq m m) with (Pos.compare m m). rewrite Pos.compare_refl. reflexivity.
Qed.

End ExactIntegers.

(** ** Decimal digits *)

Lemma digit_char_facts (d : Z) :
  (0 <= d < 10)%Z ->
  digit_value (digit_char d) = d /\ is_js_space (digit_char d) = false /\
  char_is (digit_char d) 45 = false /\ char_is (digit_char d) 43 = false /\
  char_is (digit_char d) 120 = false /\ char_is (digit_char d) 88 = false.
Proof.
  intros Hd. assert (Hcases : (d = 0 \/ d = 1 \/ d = 2 \/ d = 3 \/ d = 4 \/ d = 5 \/ d = 6 \/
                               d = 7 \/ d = 8 \/ d = 9)%Z) by lia.
  repeat destruct Hcases as [-> | Hcases]; subst; vm_compute; repeat split.
Qed.

Lemma span_digits_all (ds : list Z) :
  Forall (fun d => 0 <= d < 10)%Z ds -> span_digits 10 (map digit_char ds) = (ds, []).
Proof.
  induction 1 as [|d ds Hd _ IH]; [reflexivity|]. cbn [map span_digits].
  destruct (digit_char_facts d Hd) as (Hv & _).
  rewrite Hv, IH. replace (d <? 10)%Z with true by (symmetry; apply Z.ltb_lt; lia). reflexivity.
Qed.

Lemma parseInt_digits (ds : list Z) :
  ds <> [] -> Forall (fun d => 0 <= d < 10)%Z ds ->
  parseInt (digits_string ds) = float_of_Z (Z_of_digits 10 ds).
Proof.
  intros Hne Hall. unfold parseInt, digits_string. rewrite list_ascii_of_string_of_list_ascii.
  destruct ds as [|d ds]; [contradiction|]. pose proof Hall as Hall'.
  inversion Hall' as [|? ? Hd Hrest]; subst.
  destruct (digit_char_facts d Hd) as (_ & Hsp & Hm & Hp & _).
  cbn [map drop_spaces]. rewrite Hsp. cbn [take_sign]. rewrite Hm, Hp.
  assert (Hradix : match digit_char d :: map digit_char ds with
                   | c0 :: c1 :: rest => if char_is c0 48 && (char_is c1 120 || char_is c1 88)
                                         then (16%Z, rest) else (10%Z, digit_char d :: map digit_char ds)
                   | _ => (10%Z, digit_char d :: map digit_char ds)
                   end = (10%Z, digit_char d :: map digit_char ds)).
  { destruct ds as [|d' ds']; [reflexivity|]. inversion Hrest as [|? ? Hd' _]; subst.
    destruct (digit_char_facts d' Hd') as (_ & _ & _ & _ & Hx & HX). cbn [map].
    rewrite Hx, HX, andb_false_r. reflexivity. }
  rewrite Hradix. change (digit_char d :: map digit_char ds) with (map digit_char (d :: ds)).
  rewrite span_digits_all by exact Hall. reflexivity.
Qed.

Lemma Z_of_digits_nonneg (ds : list Z) :
  Forall (fun d => 0 <= d < 10)%Z ds -> (0 <= Z_of_digits 10 ds)%Z.
Proof.
  intros Hall. unfold Z_of_digits.
  enough (H : forall acc, (0 <= acc)%Z -> (0 <= fold_left (fun acc d => acc * 10 + d) ds acc)%Z)
    by (apply H; lia).
  induction Hall as [|d ds Hd _ IH]; intros acc Hacc; cbn [fold_left]; [exact Hacc|].
  apply IH. lia.
Qed.

Lemma Z_of_digits_snoc (r : Z) (ds : list Z) (d : Z) :
  Z_of_digits r (ds ++ [d]) = (Z_of_digits r ds * r + d)%Z.
Proof. unfold Z_of_digits. now rewrite fold_left_app. Qed.

Lemma digits_rev_S (f : nat) (n : Z) :
  digits_rev (S f) n = (n mod 10)%Z :: (if (n <? 10)%Z then [] else digits_rev f (n / 10)%Z).
Proof. reflexivity. Qed.

Lemma digits_rev_spec (fuel : nat) (n : Z) :
  (0 <= n < 10 ^ Z.of_nat (S fuel))%Z ->
  digits_rev (S fuel) n <> [] /\ Forall (fun d => 0 <= d < 10)%Z (digits_rev (S fuel) n) /\
  Z_of_digits 10 (rev (digits_rev (S fuel) n)) = n.
Proof.
  revert n. induction fuel as [|f IH]; intros n Hn;
    rewrite digits_rev_S; split; try discriminate;
    destruct (n <? 10)%Z eqn:Hlt;
    try (apply Z.ltb_lt in Hlt; rewrite Z.mod_small by lia;
         split; [constructor; [lia | constructor] | reflexivity]);
    apply Z.ltb_ge in Hlt; [cbn in Hn; lia|].
  destruct (IH (n / 10)%Z) as (_ & Hall & Hval).
  { rewrite Nat2Z.inj_succ, Z.pow_succ_r in Hn by lia.
    split; [apply Z.div_pos; lia | apply Z.div_lt_upper_bound; lia]. }
  split; [constructor; [apply Z.mod_pos_bound; lia | exact Hall]|].
  cbn [rev]. rewrite Z_of_digits_snoc, Hval. pose proof (Z.div_mod n 10). lia.
Qed.

Lemma decimal_fuel_enough (n : Z) : (0 <= n)%Z -> (n < 10 ^ Z.of_nat (S (Z.to_nat (Z.log2 n))))%Z.
Proof.
  intros Hn. rewrite Nat2Z.inj_succ, Z2Nat.id by apply Z.log2_nonneg.
  destruct (Z.eq_dec n 0) as [->|Hn0]; [reflexivity|].
  apply Z.lt_le_trans with (2 ^ Z.succ (Z.log2 n))%Z.
  - apply Z.log2_spec. lia.
  - apply Z.pow_le_mono_l. lia.
Qed.

(** [decimal_digits n] are digits that denote [n]. *)
Lemma decimal_digits_spec (n : Z) :
  (0 <= n)%Z ->
  decimal_digits n <> [] /\ Forall (fun d => 0 <= d < 10)%Z (decimal_digits n) /\
  Z_of_digits 10 (decimal_digits n) = n.
Proof.
  intros Hn. destruct (digits_rev_spec (Z.to_nat (Z.log2 n)) n) as (Hne & Hall & Hval).
  { split; [exact Hn | now apply decimal_fuel_enough]. }
  unfold decimal_digits. split; [|split].
  - intros H. apply Hne. now apply (f_equal (@rev Z)) in H; rewrite rev_involutive in H.
  - now apply Forall_rev.
  - exact Hval.
Qed.

(** [parseInt] reads back the decimal digits of a natural number. *)
Lemma parseInt_decimal_string (n : Z) : (0 <= n)%Z -> parseInt (decimal_string n) = float_of_Z n.
Proof.
  intros Hn. destruct (decimal_digits_spec n Hn) as (Hne & Hall & Hval).
  unfold decimal_string. rewrite parseInt_digits by assumption. now rewrite Hval.
Qed.

(** Number::toString of the Number value of a natural number below 2^53
    prints its decimal digits. *)
Lemma number_to_string_nat (n : Z) :
  (0 <= n < 2 ^ 53)%Z -> number_to_string (float_of_Z n) = Some (decimal_string n).
Proof.
  intros Hn. destruct n as [|p|p]; [reflexivity | | lia].
  destruct (float_of_Z_spec p (proj2 Hn)) as (m & e & HS & He & Hm).
  pose proof (float_of_Z_truthy (Zpos p) (conj (eq_refl : (0 < Zpos p)%Z) (proj2 Hn))) as Ht.
  unfold truthy_num in Ht. apply negb_true_iff, orb_false_iff in Ht as [_ Hnan].
  unfold number_to_string, float_to_Q. rewrite Hnan, HS.
  assert (Hq : forall q : Q, (Qnum q = Zpos m)%Z -> (Zpos (Qden q) = 2 ^ (- e))%Z ->
            (if ((Qnum q mod Zpos (Qden q) =? 0) && (Z.abs (Qnum q / Zpos (Qden q)) <? 10 ^ 21))%Z
             then Some ((if (Qnum q / Zpos (Qden q) <? 0)%Z then "-" else EmptyString) ++
                        decimal_string (Z.abs (Qnum q / Zpos (Qden q))))%string
             else None) = Some (decimal_string (Zpos p))).
  { intros q Hnum Hden. rewrite Hnum, Hden, Hm.
    assert (H2 : (0 < 2 ^ (- e))%Z) by (apply Z.pow_pos_nonneg; lia).
    rewrite Z.mod_mul, Z.div_mul by lia. cbn [Z.abs].
    replace (Zpos p <? 10 ^ 21)%Z with true by (symmetry; apply Z.ltb_lt; lia). reflexivity. }
  destruct (0 <=? e)%Z eqn:E.
  - apply Z.leb_le in E. replace e with 0%Z in * by lia. apply Hq; cbn; lia.
  - apply Hq; [reflexivity|]. cbn [Qden]. rewrite Z2Pos.id by (apply Z.pow_pos_nonneg; lia). reflexivity.
Qed.

Lemma digits_rev_fuel_le (f g : nat) (n : Z) :
  (0 <= n < 10 ^ Z.of_nat (S f))%Z -> (f <= g)%nat -> digits_rev (S f) n = digits_rev (S g) n.
Proof.
  revert n g. induction f as [|f IH]; intros n g Hn Hfg; rewrite !digits_rev_S;
    destruct (n <? 10)%Z eqn:Hlt; try reflexivity; apply Z.ltb_ge in Hlt; [cbn in Hn; lia|].
  destruct g as [|g]; [lia|]. f_equal. apply IH; [|lia].
  rewrite Nat2Z.inj_succ, Z.pow_succ_r in Hn by lia.
  split; [apply Z.div_pos; lia | apply Z.div_lt_upper_bound; lia].
Qed.

Lemma digits_rev_fuel (f g : nat) (n : Z) :
  (0 <= n < 10 ^ Z.of_nat (S f))%Z -> (0 <= n < 10 ^ Z.of_nat (S g))%Z ->
  digits_rev (S f) n = digits_rev (S g) n.
Proof.
  intros Hf Hg. destruct (Nat.le_ge_cases f g).
  - now apply digits_rev_fuel_le.
  - symmetry. now apply digits_rev_fuel_le.
Qed.

(** The last digit of a number of two digits or more. *)
Lemma decimal_digits_last (n : Z) :
  (10 <= n)%Z -> decimal_digits n = decimal_digits (n / 10) ++ [(n mod 10)%Z].
Proof.
  intros Hn. unfold decimal_digits.
  assert (HL : (1 <= Z.log2 n)%Z) by (apply Z.log2_le_pow2; lia).
  destruct (Z.to_nat (Z.log2 n)) as [|L] eqn:EL; [lia|].
  rewrite digits_rev_S. replace (n <? 10)%Z with false by (symmetry; apply Z.ltb_ge; lia).
  cbn [rev]. f_equal. f_equal. apply digits_rev_fuel.
  - split; [apply Z.div_pos; lia|]. pose proof (decimal_fuel_enough n ltac:(lia)) as H.
    rewrite EL, Nat2Z.inj_succ, Z.pow_succ_r in H by lia. apply Z.div_lt_upper_bound; lia.
  - split; [apply Z.div_pos; lia|]. apply decimal_fuel_enough, Z.div_pos; lia.
Qed.

Lemma digits_string_app (a b : list Z) :
  digits_string (a ++ b) = (digits_string a ++ digits_string b)%string.
Proof. unfold digits_string. now rewrite map_app, string_of_list_ascii_app. Qed.

Lemma substring_app_l (a b : string) : substring 0 (String.length a) (a ++ b) = a.
Proof. induction a as [|c a IH]; [now destruct b | cbn; now rewrite IH]. Qed.

Lemma substring_app_r (a b : string) :
  substring (String.length a) (String.length b) (a ++ b) = b.
Proof.
  induction a as [|c a IH]; [|exact IH]. cbn.
  induction b as [|c b IH]; [reflexivity | cbn; now rewrite IH].
Qed.

Lemma digits_string_length (ds : list Z) : String.length (digits_string ds) = List.length ds.
Proof. unfold digits_string. induction ds as [|d ds IH]; cbn; [reflexivity | now rewrite IH]. Qed.

(** [point_one n] prints [n / 10], a point and the digit [n mod 10]. *)
Lemma point_one_spec (n : Z) :
  (0 <= n)%Z ->
  point_one n = (decimal_string (n / 10) ++ "." ++ digits_string [(n mod 10)%Z])%string.
Proof.
  intros Hn. unfold point_one, decimal_string.
  destruct (Z.lt_ge_cases n 10) as [Hlt|Hge].
  - rewrite Z.div_small, Z.mod_small by lia.
    assert (Hd : decimal_digits n = [n]).
    { unfold decimal_digits. destruct (Z.to_nat (Z.log2 n)); rewrite digits_rev_S;
        replace (n <? 10)%Z with true by (symmetry; apply Z.ltb_lt; lia);
        rewrite Z.mod_small by lia; reflexivity. }
    rewrite Hd. reflexivity.
  - rewrite decimal_digits_last by lia. rewrite digits_string_app, !string_length_append, !digits_string_length.
    cbn [List.length].
    destruct (decimal_digits_spec (n / 10) ltac:(apply Z.div_pos; lia)) as (Hne & _).
    destruct (decimal_digits (n / 10)) as [|d ds]; [contradiction|].
    cbn [List.length]. replace (S (List.length ds) + 1 <=? 1)%nat with false by (symmetry; apply Nat.leb_gt; lia).
    replace (S (List.length ds) + 1 - 1)%nat with (String.length (digits_string (d :: ds)))
      by (rewrite digits_string_length; cbn; lia).
    rewrite substring_app_l, (substring_app_r _ (digits_string [(n mod 10)%Z])). reflexivity.
Qed.

(** A float that denotes a rational is not NaN. *)
Lemma float_to_Q_not_nan (x : float) (q : Q) : float_to_Q x = Some q -> is_nan x = false.
Proof.
  unfold float_to_Q, is_nan. rewrite eqb_spec.
  destruct (Prim2SF x) as [[]|[]| |[] m e]; intros H; try discriminate H; cbn;
    rewrite ?Z.compare_refl, ?Pos.compare_refl; reflexivity.
Qed.

(** [x.toFixed(1)] of a non-negative number below 10^21 prints the integer
    [n] nearest to [10 x] as [n / 10]. *)
Lemma toFixed1_spec (x : float) (q : Q) :
  float_to_Q x = Some q -> (0 <= q)%Q -> (q < inject_Z (10 ^ 21))%Q ->
  exists n, toFixed1 x = Some (point_one n) /\ (0 <= n)%Z /\
    (Qabs (inject_Z n - q * 10) <= 1 # 2)%Q.
Proof.
  intros Hq H0 H21. exists (Qfloor (q * 10 + (1 # 2))).
  assert (Habs : Qabs q = q).
  { destruct q as [a b]. unfold Qle in H0. cbn in H0 |- *. f_equal. lia. }
  unfold toFixed1. rewrite (float_to_Q_not_nan x q Hq), Hq, Habs.
  replace (Qle_bool (inject_Z (10 ^ 21)) q) with false
    by (symmetry; apply not_true_iff_false; rewrite Qle_bool_iff; lra).
  replace (Qle_bool 0 q) with true by (symmetry; now apply Qle_bool_iff).
  pose proof (Qfloor_le (q * 10 + (1 # 2))) as Hle.
  pose proof (Qlt_floor (q * 10 + (1 # 2))) as Hlt.
  rewrite inject_Z_plus in Hlt. change (inject_Z 1) with 1 in Hlt.
  set (n := Qfloor (q * 10 + (1 # 2))) in *.
  split; [reflexivity | split].
  - assert (H : inject_Z (-1) < inject_Z n) by (change (inject_Z (-1)) with (-1); lra).
    rewrite <- Zlt_Qlt in H. lia.
  - apply Qabs_Qle_condition. split; lra.
Qed.

Lemma drop_spaces_length (l : list ascii) : (List.length (drop_spaces l) <= List.length l)%nat.
Proof.
  induction l as [|c l IH]; cbn [drop_spaces List.length]; [lia|].
  destruct (is_js_space c); cbn [List.length]; lia.
Qed.

(** [trim] never lengthens a string. *)
Lemma js_trim_length (s : string) :
  (List.length (list_ascii_of_string (js_trim s)) <= String.length s)%nat.
Proof.
  unfold js_trim. rewrite list_ascii_of_string_of_list_ascii, length_rev.
  rewrite <- (length_list_ascii_of_string s).
  etransitivity; [apply drop_spaces_length|]. rewrite length_rev. apply drop_spaces_length.
Qed.

(** [s.split(c)] has one piece more than [s] has separators. *)
Lemma js_split_length (c : ascii) (s : string) :
  List.length (js_split c s) = S (count_occ ascii_dec (list_ascii_of_string s) c).
Proof.
  induction s as [|d s IH]; [reflexivity|]. cbn [js_split list_ascii_of_string count_occ].
  destruct (Ascii.eqb d c) eqn:E.
  - apply Ascii.eqb_eq in E. subst. destruct (ascii_dec c c) as [_|n]; [|congruence].
    cbn. now rewrite IH.
  - apply Ascii.eqb_neq in E. destruct (ascii_dec d c) as [e|_]; [congruence|].
    destruct (js_split c s); cbn in *; lia.
Qed.
