(* ===== verification/Scorer.v ===== *)
(** * SurvivalScorer: [predictSurvival] (TitanicPredictor.tsx, lines 148-198)

    [Passenger] is the TypeScript interface of lines 4-17 seen through
    [Partial<Passenger>]: every field may be absent ([None]); [Age] and [Fare]
    are [number | null], so they are [option (option float)].  [predictSurvival]
    follows the source statement by statement in binary64 arithmetic.

    The five [if] chains only choose, for each rule, which constant is added:
    [rules_of] records these choices and [score_of] replays the same float
    operations from them ([predictSurvival_rules]).  There are 162 rule
    outcomes, so statements over every passenger reduce to a boolean check over
    [all_rules] that the kernel evaluates ([forall_rules]).  [exact_score] is the
    spec's table in exact hundredths; [spec_rules] is the spec's contract, where
    only an absent attribute takes the default. *)

From Stdlib Require Import ZArith List String Ascii Bool Lia QArith Floats.
From S2P Require Import Prelude JsRuntime.
Import ListNotations.

#[local] Set Warnings "-inexact-float".
#[local] Open Scope js_scope.

(** ** Data *)

Record Passenger : Type := mkPassenger {
  PassengerId : option float;
  Survived : option float;
  Pclass : option float;
  Name : option string;
  Sex : option string;
  Age : option (option float);
  SibSp : option float;
  Parch : option float;
  Ticket : option string;
  Fare : option (option float);
  Cabin : option string;
  Embarked : option string
}.

Record Prediction : Type := mkPrediction {
  probability : float;
  survived : bool
}.

(** The number in a [number | null] field that may be absent. *)
Definition present (x : option (option float)) : option float :=
  match x with Some y => y | None => None end.

(** ** The scorer *)

Definition predictSurvival (passenger : Passenger) : Prediction :=
  let score := 0.5%float in
  let score := if Sex passenger === Some "female"%string
               then (score + 0.35)%float else (score - 0.25)%float in
  let score := if Pclass passenger === Some 1%float then (score + 0.2)%float
               else if Pclass passenger === Some 2%float then (score + 0.05)%float
               else (score - 0.15)%float in
  let age := or_num (present (Age passenger)) 30 in
  let score := if PrimFloat.ltb age 16 then (score + 0.1)%float
               else if PrimFloat.ltb 60 age then (score - 0.1)%float
               else score in
  let familySize := (or_num (SibSp passenger) 0 + or_num (Parch passenger) 0)%float in
  let score := if PrimFloat.ltb 0 familySize && PrimFloat.ltb familySize 4
               then (score + 0.05)%float
               else if PrimFloat.leb 4 familySize then (score - 0.1)%float
               else score in
  let fare := or_num (present (Fare passenger)) 15 in
  let score := if PrimFloat.ltb 50 fare then (score + 0.1)%float
               else if PrimFloat.ltb fare 10 then (score - 0.05)%float
               else score in
  let probability := js_max 0 (js_min 1 score) in
  {| probability := probability; survived := PrimFloat.ltb 0.5 probability |}.

(** ** Rule outcomes *)

Inductive class_rule : Type := First | Second | OtherClass.

Inductive adjust : Type := Raise | Keep | Lower.

Record rules : Type := mkRules {
  r_female : bool;
  r_class : class_rule;
  r_age : adjust;
  r_family : adjust;
  r_fare : adjust
}.

Definition adjust_of (raise lower : bool) : adjust :=
  if raise then Raise else if lower then Lower else Keep.

Definition class_of (c : option float) : class_rule :=
  if c === Some 1%float then First else if c === Some 2%float then Second else OtherClass.

Definition age_rule (age : float) : adjust :=
  adjust_of (PrimFloat.ltb age 16) (PrimFloat.ltb 60 age).

Definition family_rule (familySize : float) : adjust :=
  adjust_of (PrimFloat.ltb 0 familySize && PrimFloat.ltb familySize 4) (PrimFloat.leb 4 familySize).

Definition fare_rule (fare : float) : adjust :=
  adjust_of (PrimFloat.ltb 50 fare) (PrimFloat.ltb fare 10).

(** The choices the code makes, with its [||] defaults. *)
Definition rules_of (p : Passenger) : rules :=
  {| r_female := Sex p === Some "female"%string;
     r_class := class_of (Pclass p);
     r_age := age_rule (or_num (present (Age p)) 30);
     r_family := family_rule (or_num (SibSp p) 0 + or_num (Parch p) 0)%float;
     r_fare := fare_rule (or_num (present (Fare p)) 15) |}.

Definition apply_adjust (s up down : float) (a : adjust) : float :=
  match a with Raise => (s + up)%float | Keep => s | Lower => (s - down)%float end.

(** The same float operations as [predictSurvival], driven by the choices. *)
Definition score_of (r : rules) : float :=
  let s := if r_female r then (0.5 + 0.35)%float else (0.5 - 0.25)%float in
  let s := match r_class r with
           | First => (s + 0.2)%float
           | Second => (s + 0.05)%float
           | OtherClass => (s - 0.15)%float
           end in
  let s := apply_adjust s 0.1 0.1 (r_age r) in
  let s := apply_adjust s 0.05 0.1 (r_family r) in
  apply_adjust s 0.1 0.05 (r_fare r).

Definition prediction_of_score (score : float) : Prediction :=
  let probability := js_max 0 (js_min 1 score) in
  {| probability := probability; survived := PrimFloat.ltb 0.5 probability |}.

Definition all_classes : list class_rule := [First; Second; OtherClass].

Definition all_adjusts : list adjust := [Raise; Keep; Lower].

(** [P] holds at each of the 162 rule outcomes. *)
Definition check_all_rules (P : rules -> bool) : bool :=
  forallb (fun f =>
  forallb (fun c =>
  forallb (fun a =>
  forallb (fun fam =>
  forallb (fun fr => P (mkRules f c a fam fr)) all_adjusts) all_adjusts) all_adjusts)
    all_classes) [true; false].

(** ** The exact table of the spec, in hundredths *)

Definition adjust_points (up down : Z) (a : adjust) : Z :=
  match a with Raise => up | Keep => 0 | Lower => - down end.

Definition exact_score (r : rules) : Z :=
  50 + (if r_female r then 35 else -25)
     + match r_class r with First => 20 | Second => 5 | OtherClass => -15 end
     + adjust_points 10 10 (r_age r)
     + adjust_points 5 10 (r_family r)
     + adjust_points 10 5 (r_fare r).

Definition exact_probability (r : rules) : Z := Z.max 0 (Z.min 100 (exact_score r)).

(** The spec's choices (section 4.2): a default replaces an absent attribute
    only; a present NaN fails every comparison. *)
Definition default_if_absent (x : option float) (d : float) : float :=
  match x with Some f => f | None => d end.

Definition spec_rules (p : Passenger) : rules :=
  {| r_female := Sex p === Some "female"%string;
     r_class := class_of (Pclass p);
     r_age := age_rule (default_if_absent (present (Age p)) 30);
     r_family := family_rule (default_if_absent (SibSp p) 0 + default_if_absent (Parch p) 0)%float;
     r_fare := fare_rule (default_if_absent (present (Fare p)) 15) |}.

(** ** Specification-level definitions used by the theorems *)

(** The exact probability as a rational, and the tolerance of the float one. *)
Definition exact_Q (r : rules) : Q := Qmake (exact_probability r) 100.

Definition float_tolerance : Q := Qmake 1 9007199254740992.

(** The float computation agrees with the exact table at the outcome [r]. *)
Definition refines_exact (r : rules) : bool :=
  let pr := prediction_of_score (score_of r) in
  Bool.eqb (survived pr) (50 <? exact_probability r)%Z &&
  float_in_Q (exact_Q r - float_tolerance) (exact_Q r + float_tolerance) (probability pr).

(** The inputs on which the code's [||] defaults coincide with the spec's
    "absent" defaults: a present age or fare is neither 0 nor NaN, a present
    sibling or parent count is neither NaN nor [-0]. *)
Definition truthy_or_absent (x : option float) : bool :=
  match x with Some f => truthy_num f | None => true end.

Definition ordinary_count (x : option float) : bool :=
  match x with Some f => negb (is_nan f) && negb (is_zero f && get_sign f) | None => true end.

Definition numbers_as_spec (p : Passenger) : bool :=
  truthy_or_absent (present (Age p)) && truthy_or_absent (present (Fare p)) &&
  ordinary_count (SibSp p) && ordinary_count (Parch p).

Definition with_sex (p : Passenger) (s : string) : Passenger :=
  {| PassengerId := PassengerId p; Survived := Survived p; Pclass := Pclass p;
     Name := Name p; Sex := Some s; Age := Age p; SibSp := SibSp p; Parch := Parch p;
     Ticket := Ticket p; Fare := Fare p; Cabin := Cabin p; Embarked := Embarked p |}.

Definition with_class (p : Passenger) (c : float) : Passenger :=
  {| PassengerId := PassengerId p; Survived := Survived p; Pclass := Some c;
     Name := Name p; Sex := Sex p; Age := Age p; SibSp := SibSp p; Parch := Parch p;
     Ticket := Ticket p; Fare := Fare p; Cabin := Cabin p; Embarked := Embarked p |}.

Definition with_age_field (p : Passenger) (a : option (option float)) : Passenger :=
  {| PassengerId := PassengerId p; Survived := Survived p; Pclass := Pclass p;
     Name := Name p; Sex := Sex p; Age := a; SibSp := SibSp p; Parch := Parch p;
     Ticket := Ticket p; Fare := Fare p; Cabin := Cabin p; Embarked := Embarked p |}.

Definition with_fare_field (p : Passenger) (f : option (option float)) : Passenger :=
  {| PassengerId := PassengerId p; Survived := Survived p; Pclass := Pclass p;
     Name := Name p; Sex := Sex p; Age := Age p; SibSp := SibSp p; Parch := Parch p;
     Ticket := Ticket p; Fare := f; Cabin := Cabin p; Embarked := Embarked p |}.

Definition set_female (r : rules) (b : bool) : rules :=
  {| r_female := b; r_class := r_class r; r_age := r_age r; r_family := r_family r; r_fare := r_fare r |}.

Definition set_class (r : rules) (c : class_rule) : rules :=
  {| r_female := r_female r; r_class := c; r_age := r_age r; r_family := r_family r; r_fare := r_fare r |}.

Definition prob_of_rules (r : rules) : float := probability (prediction_of_score (score_of r)).

(** At the outcome [r], the probabilities of the woman and the man differ by
    0.60 up to rounding when neither exact score leaves [0, 1], and by at most
    0.55 otherwise. *)
Definition sex_gap_ok (r : rules) : bool :=
  let f := set_female r true in
  let m := set_female r false in
  match float_to_Q (prob_of_rules f), float_to_Q (prob_of_rules m) with
  | Some qf, Some qm =>
      if ((exact_score f <=? 100) && (0 <=? exact_score m))%Z
      then Qle_bool (Qmake 3 5 - 2 * float_tolerance) (qf - qm) &&
           Qle_bool (qf - qm) (Qmake 3 5 + 2 * float_tolerance)
      else Qle_bool (qf - qm) (Qmake 11 20 + 2 * float_tolerance)
  | _, _ => false
  end.

(** A passenger with only the attributes the prediction form sets. *)
Definition form_passenger (sex : string) (pclass age sibsp parch fare : float) : Passenger :=
  {| PassengerId := None; Survived := None; Pclass := Some pclass; Name := None;
     Sex := Some sex; Age := Some (Some age); SibSp := Some sibsp; Parch := Some parch;
     Ticket := None; Fare := Some (Some fare); Cabin := None; Embarked := Some "S"%string |}.

(** ** The interface the summariser relies on *)

(** What a scorer promises its clients: a prediction for every passenger,
    whose verdict is the threshold of its probability at 0.5. *)
Class SurvivalModel : Type := {
  predict : Passenger -> Prediction;
  predict_verdict : forall p, survived (predict p) = PrimFloat.ltb 0.5 (probability (predict p))
}.

#[export] Instance predictSurvival_model : SurvivalModel := {
  predict := predictSurvival;
  predict_verdict := fun p => eq_refl
}.

(** ** Lemmas *)

Lemma predictSurvival_rules (p : Passenger) :
  predictSurvival p = prediction_of_score (score_of (rules_of p)).
Proof.
  unfold predictSurvival, prediction_of_score, score_of, rules_of, class_of,
    age_rule, family_rule, fare_rule, adjust_of; cbn [r_female r_class r_age r_family r_fare].
  case_ifs; reflexivity.
Qed.

Lemma in_all_classes (c : class_rule) : In c all_classes.
Proof. destruct c; cbn; tauto. Qed.

Lemma in_all_adjusts (a : adjust) : In a all_adjusts.
Proof. destruct a; cbn; tauto. Qed.

Lemma in_bools (b : bool) : In b [true; false].
Proof. destruct b; cbn; tauto. Qed.

#[export] Hint Resolve in_all_classes in_all_adjusts in_bools : titanic.

Lemma forall_rules (P : rules -> bool) :
  check_all_rules P = true -> forall r, P r = true.
Proof.
  intros H [f c a fam fr]. unfold check_all_rules in H.
  rewrite forallb_forall in H. specialize (H f (in_bools f)).
  rewrite forallb_forall in H. specialize (H c (in_all_classes c)).
  rewrite forallb_forall in H. specialize (H a (in_all_adjusts a)).
  rewrite forallb_forall in H. specialize (H fam (in_all_adjusts fam)).
  rewrite forallb_forall in H. exact (H fr (in_all_adjusts fr)).
Qed.

(** ** Helper lemmas *)

Lemma refines_exact_all (r : rules) : refines_exact r = true.
Proof. solve_by_enum (forall_rules refines_exact). Qed.

Lemma refines_exact_spec (r : rules) :
  survived (prediction_of_score (score_of r)) = (50 <? exact_probability r)%Z /\
  exists q, float_to_Q (prob_of_rules r) = Some q /\
            (exact_Q r - float_tolerance <= q <= exact_Q r + float_tolerance)%Q.
Proof.
  pose proof (refines_exact_all r) as H. unfold refines_exact in H.
  apply andb_true_iff in H as [H1 H2]. split.
  - now apply Bool.eqb_prop in H1.
  - now apply float_in_Q_spec.
Qed.

Lemma or_num_as_spec_truthy (x : option float) (d : float) :
  truthy_or_absent x = true -> or_num x d = default_if_absent x d.
Proof. destruct x as [f|]; cbn; [apply or_num_truthy | reflexivity]. Qed.

Lemma or_num_as_spec_count (x : option float) :
  ordinary_count x = true -> or_num x 0 = default_if_absent x 0.
Proof.
  destruct x as [f|]; cbn; [|reflexivity].
  rewrite andb_true_iff, negb_true_iff. intros [Hn Hs]. now apply or_num_zero_default.
Qed.

Lemma rules_of_as_spec (p : Passenger) :
  numbers_as_spec p = true -> rules_of p = spec_rules p.
Proof.
  unfold numbers_as_spec. rewrite !andb_true_iff. intros [[[Ha Hf] Hs] Hp].
  unfold rules_of, spec_rules.
  rewrite (or_num_as_spec_truthy _ _ Ha), (or_num_as_spec_truthy _ _ Hf),
    (or_num_as_spec_count _ Hs), (or_num_as_spec_count _ Hp).
  reflexivity.
Qed.

Lemma rules_of_with_sex (p : Passenger) (s : string) :
  rules_of (with_sex p s) = set_female (rules_of p) (Some s === Some "female"%string).
Proof. reflexivity. Qed.

Lemma rules_of_with_class (p : Passenger) (c : float) :
  rules_of (with_class p c) = set_class (rules_of p) (class_of (Some c)).
Proof. reflexivity. Qed.

Lemma prob_in_unit_all (p : Passenger) : float_in_Q 0 1 (probability (predictSurvival p)) = true.
Proof.
  rewrite predictSurvival_rules.
  solve_by_enum (forall_rules (fun r => float_in_Q 0 1 (prob_of_rules r))).
Qed.

(** ** Theorems *)

(** C1: for every passenger, whatever fields are present, absent, zero or NaN,
    the probability [predictSurvival] returns is a finite number in [0, 1]. *)
Theorem predictSurvival_probability_in_unit (p : Passenger) :
  exists q, float_to_Q (probability (predictSurvival p)) = Some q /\ (0 <= q <= 1)%Q.
Proof. apply float_in_Q_spec, prob_in_unit_all. Qed.

(** C2: the double-precision computation refines the exact decimal table: on
    every passenger the verdict is the one the exact score in hundredths gives
    (clamped score above 50), and the probability is within 2^-53 of the exact
    clamped score divided by 100, although 114 of the 162 rule outcomes are
    not exactly representable. *)
Theorem predictSurvival_refines_exact (p : Passenger) :
  survived (predictSurvival p) = (50 <? exact_probability (rules_of p))%Z /\
  exists q, float_to_Q (probability (predictSurvival p)) = Some q /\
            (exact_Q (rules_of p) - float_tolerance <= q <= exact_Q (rules_of p) + float_tolerance)%Q.
Proof. rewrite predictSurvival_rules. apply refines_exact_spec. Qed.

(** C3: on a passenger whose present age and fare are neither 0 nor NaN and
    whose sibling and parent counts are neither NaN nor -0, [predictSurvival]
    meets the contract of the spec (section 4.2): its verdict is the spec's and
    its probability is the spec's up to 2^-53. *)
Theorem predictSurvival_meets_spec (p : Passenger) :
  numbers_as_spec p = true ->
  survived (predictSurvival p) = (50 <? exact_probability (spec_rules p))%Z /\
  exists q, float_to_Q (probability (predictSurvival p)) = Some q /\
            (exact_Q (spec_rules p) - float_tolerance <= q <= exact_Q (spec_rules p) + float_tolerance)%Q.
Proof.
  intros H. rewrite predictSurvival_rules, <- (rules_of_as_spec p H).
  apply refines_exact_spec.
Qed.

Lemma predictSurvival_meets_spec_witness :
  survived (predictSurvival (form_passenger "female" 1 10 1 1 80)) =
    (50 <? exact_probability (spec_rules (form_passenger "female" 1 10 1 1 80)))%Z /\
  exists q, float_to_Q (probability (predictSurvival (form_passenger "female" 1 10 1 1 80))) = Some q /\
    (exact_Q (spec_rules (form_passenger "female" 1 10 1 1 80)) - float_tolerance <= q <=
     exact_Q (spec_rules (form_passenger "female" 1 10 1 1 80)) + float_tolerance)%Q.
Proof. apply predictSurvival_meets_spec. vm_compute. reflexivity. Defined.

(** C4: a recorded fare that is falsy in JavaScript (0, -0 or NaN) is replaced
    by the default 15 through [passenger.Fare || 15]: for every passenger the
    prediction with such a fare is the prediction with no fare at all.  The
    spec's rule gives the default only to an absent fare, so it applies the
    [fare < 10] penalty to a fare of 0. *)
Theorem fare_falsy_as_absent (p : Passenger) (z : float) :
  truthy_num z = false ->
  predictSurvival (with_fare_field p (Some (Some z))) = predictSurvival (with_fare_field p None) /\
  r_fare (spec_rules (with_fare_field p (Some (Some 0%float)))) = Lower.
Proof.
  intros Hz. split; [|reflexivity].
  rewrite !predictSurvival_rules. unfold rules_of. cbn [Fare Age Sex Pclass SibSp Parch with_fare_field present].
  unfold or_num. rewrite Hz. reflexivity.
Qed.

Lemma fare_falsy_as_absent_witness :
  predictSurvival (with_fare_field (form_passenger "male" 1 10 0 0 12) (Some (Some 0%float))) =
    predictSurvival (with_fare_field (form_passenger "male" 1 10 0 0 12) None) /\
  r_fare (spec_rules (with_fare_field (form_passenger "male" 1 10 0 0 12) (Some (Some 0%float)))) = Lower.
Proof. apply fare_falsy_as_absent. reflexivity. Defined.

(** C5: a recorded age that is falsy (0, -0 or NaN) is replaced by the default
    30 through [passenger.Age || 30]: for every passenger the prediction with
    such an age is the prediction with no age, so a newborn is not a child for
    the scorer, while the spec's rule (age below 16) counts an age of 0 as a
    child. *)
Theorem age_falsy_as_absent (p : Passenger) (z : float) :
  truthy_num z = false ->
  predictSurvival (with_age_field p (Some (Some z))) = predictSurvival (with_age_field p None) /\
  r_age (spec_rules (with_age_field p (Some (Some 0%float)))) = Raise.
Proof.
  intros Hz. split; [|reflexivity].
  rewrite !predictSurvival_rules. unfold rules_of. cbn [Fare Age Sex Pclass SibSp Parch with_age_field present].
  unfold or_num. rewrite Hz. reflexivity.
Qed.

Lemma age_falsy_as_absent_witness :
  predictSurvival (with_age_field (form_passenger "male" 1 0 0 1 15) (Some (Some 0%float))) =
    predictSurvival (with_age_field (form_passenger "male" 1 0 0 1 15) None) /\
  r_age (spec_rules (with_age_field (form_passenger "male" 1 0 0 1 15) (Some (Some 0%float)))) = Raise.
Proof. apply age_falsy_as_absent. reflexivity. Defined.

(** C6: with every other attribute fixed, a female passenger always gets a
    strictly higher probability than a male one. *)
Theorem female_strictly_more_likely (p : Passenger) :
  PrimFloat.ltb (probability (predictSurvival (with_sex p "male")))
                (probability (predictSurvival (with_sex p "female"))) = true.
Proof.
  rewrite !predictSurvival_rules, !rules_of_with_sex.
  solve_by_enum (forall_rules (fun r =>
    PrimFloat.ltb (prob_of_rules (set_female r false)) (prob_of_rules (set_female r true)))).
Qed.

(** C7: with every other attribute fixed, a first-class passenger always gets a
    strictly higher probability than a third-class one. *)
Theorem first_class_strictly_more_likely (p : Passenger) :
  PrimFloat.ltb (probability (predictSurvival (with_class p 3)))
                (probability (predictSurvival (with_class p 1))) = true.
Proof.
  rewrite !predictSurvival_rules, !rules_of_with_class.
  solve_by_enum (forall_rules (fun r =>
    PrimFloat.ltb (prob_of_rules (set_class r OtherClass)) (prob_of_rules (set_class r First)))).
Qed.

(** C8: the spec (section 8) says that switching from male to female raises
    the probability by exactly 0.60.  For every passenger the code raises it
    by 0.60 up to rounding when neither exact score leaves [0, 1], and by at
    most 0.55 when the clamp cuts one of them: the clamp, not the constants,
    breaks the spec's claim. *)
Theorem sex_gap_unless_clamped (p : Passenger) :
  exists qf qm,
    float_to_Q (probability (predictSurvival (with_sex p "female"))) = Some qf /\
    float_to_Q (probability (predictSurvival (with_sex p "male"))) = Some qm /\
    ((exact_score (rules_of (with_sex p "female")) <= 100 /\
      0 <= exact_score (rules_of (with_sex p "male")))%Z ->
       (Qmake 3 5 - 2 * float_tolerance <= qf - qm <= Qmake 3 5 + 2 * float_tolerance)%Q) /\
    ((100 < exact_score (rules_of (with_sex p "female")) \/
      exact_score (rules_of (with_sex p "male")) < 0)%Z ->
       (qf - qm <= Qmake 11 20 + 2 * float_tolerance)%Q).
Proof.
  rewrite !predictSurvival_rules.
  change (rules_of (with_sex p "female")) with (set_female (rules_of p) true).
  change (rules_of (with_sex p "male")) with (set_female (rules_of p) false).
  pose proof (forall_rules sex_gap_ok ltac:(vm_compute; reflexivity) (rules_of p)) as H.
  unfold sex_gap_ok, prob_of_rules in H.
  destruct (float_to_Q (probability (prediction_of_score (score_of (set_female (rules_of p) true)))))
    as [qf|]; [|discriminate].
  destruct (float_to_Q (probability (prediction_of_score (score_of (set_female (rules_of p) false)))))
    as [qm|]; [|discriminate].
  exists qf, qm. split; [reflexivity | split; [reflexivity | split]].
  - intros [Hf Hm]. apply Z.leb_le in Hf, Hm. rewrite Hf, Hm in H.
    apply andb_true_iff in H as [H1 H2]. apply Qle_bool_iff in H1, H2. auto.
  - intros Hc. destruct ((_ <=? 100) && (0 <=? _))%Z eqn:E in H.
    + apply andb_true_iff in E as [E1 E2]. apply Z.leb_le in E1, E2. lia.
    + now apply Qle_bool_iff.
Qed.
