(* ===== verification/CsvParser.v ===== *)
(** * CsvParser: [parseCSVLine] and [parseCSV] (TitanicPredictor.tsx, lines 71-120)

    [parseCSVLine] is a loop over the characters of a line with three mutable
    variables ([result], [current], [inQuotes]); the model is the record
    [line_state], the loop body [line_step] and a [fold_left] over the
    characters, followed by the final [result.push(current)].

    [parseCSV] builds, for each line after the header, an object of type [any]
    whose keys are the header names: here a [gmap string jsval] built by
    [assign_fields], one insertion per header in the order of [forEach].
    [passenger_of_object] reads such an object at the types of the [Passenger]
    interface, which is what the cast [passenger as Passenger] asserts. *)

From Stdlib Require Import ZArith List String Ascii Bool Lia Floats.
From Stdlib Require QArith_base.
From stdpp Require Import base gmap strings.
From S2P Require Import Prelude JsRuntime Scorer.
Import ListNotations.

#[local] Set Warnings "-inexact-float".

Definition dquote : ascii := ascii_of_nat 34.

Definition comma : ascii := ascii_of_nat 44.

Definition newline : ascii := ascii_of_nat 10.

(** ** parseCSVLine *)

Record line_state : Type := mkLineState {
  result : list string;
  current : string;
  inQuotes : bool
}.

Definition line_init : line_state :=
  {| result := []; current := EmptyString; inQuotes := false |}.

(** One iteration of the [for] loop, lines 108-116. *)
Definition line_step (st : line_state) (char : ascii) : line_state :=
  if Ascii.eqb char dquote then
    {| result := result st; current := current st; inQuotes := negb (inQuotes st) |}
  else if Ascii.eqb char comma && negb (inQuotes st) then
    {| result := result st ++ [current st]; current := EmptyString; inQuotes := inQuotes st |}
  else
    {| result := result st; current := (current st ++ String char EmptyString)%string;
       inQuotes := inQuotes st |}.

Definition parseCSVLine (line : string) : list string :=
  let st := fold_left line_step (list_ascii_of_string line) line_init in
  result st ++ [current st].

(** ** parseCSV *)

Definition int_headers : list string := ["PassengerId"; "Survived"; "Pclass"; "SibSp"; "Parch"]%string.

Definition float_headers : list string := ["Age"; "Fare"]%string.

Definition is_int_header (h : string) : bool := existsb (String.eqb h) int_headers.

Definition is_float_header (h : string) : bool := existsb (String.eqb h) float_headers.

(** The [switch (header)] of lines 81-95. *)
Definition coerce (header value : string) : jsval :=
  if is_int_header header then JsNum (or_num (Some (parseInt value)) 0)
  else if is_float_header header then
    (if truthy_str value then JsNum (parseFloat value) else JsNull)
  else JsStr value.

(** Line 80: [values[index]], with every double quote removed by [replace] when
    it is defined, and the empty string when it is undefined or empty. *)
Definition raw_value (v : option string) : string :=
  match v with
  | Some s => let r := remove_char dquote s in if truthy_str r then r else EmptyString
  | None => EmptyString
  end.

(** [passenger[header] = value] on a fresh object literal: an own property is
    created or overwritten, except for the key [__proto__], where the setter
    inherited from [Object.prototype] runs instead and creates no property
    (ECMA-262 20.1.3.8.2; for a string or number value it does nothing at all,
    for [null] it only changes the prototype, which no read below observes). *)
Definition js_set (o : gmap string jsval) (key : string) (v : jsval) : gmap string jsval :=
  if String.eqb key "__proto__" then o else <[key := v]> o.

(** [headers.forEach((header, index) => ...)] (lines 79-96). *)
Fixpoint assign_fields (values : list string) (index : nat) (headers : list string)
    (passenger : gmap string jsval) : gmap string jsval :=
  match headers with
  | [] => passenger
  | header :: rest =>
      assign_fields values (S index) rest
        (js_set passenger header (coerce header (raw_value (nth_error values index))))
  end.

Definition parse_row (headers : list string) (line : string) : gmap string jsval :=
  assign_fields (parseCSVLine line) 0 headers ∅.

Definition parseCSV (csvText : string) : list (gmap string jsval) :=
  let lines := js_split newline (js_trim csvText) in
  let headers := js_split comma (nth 0 lines EmptyString) in
  map (parse_row headers) (skipn 1 lines).

(** ** The cast to [Passenger] *)

Definition num_field (o : gmap string jsval) (k : string) : option float :=
  match o !! k with Some (JsNum f) => Some f | _ => None end.

Definition nullable_field (o : gmap string jsval) (k : string) : option (option float) :=
  match o !! k with Some (JsNum f) => Some (Some f) | Some JsNull => Some None | _ => None end.

Definition str_field (o : gmap string jsval) (k : string) : option string :=
  match o !! k with Some (JsStr s) => Some s | _ => None end.

Definition passenger_of_object (o : gmap string jsval) : Passenger :=
  {| PassengerId := num_field o "PassengerId"; Survived := num_field o "Survived";
     Pclass := num_field o "Pclass"; Name := str_field o "Name"; Sex := str_field o "Sex";
     Age := nullable_field o "Age"; SibSp := num_field o "SibSp"; Parch := num_field o "Parch";
     Ticket := str_field o "Ticket"; Fare := nullable_field o "Fare";
     Cabin := str_field o "Cabin"; Embarked := str_field o "Embarked" |}.

(** ** Printing, predicates and types used by the theorems *)

Definition quote_field (f : string) : string := String dquote (f ++ String dquote EmptyString).

Definition render_line (fields : list string) : string := String.concat (String comma EmptyString) fields.

Definition quote_free (f : string) : bool :=
  forallb (fun c => negb (Ascii.eqb c dquote)) (list_ascii_of_string f).

Definition plain_field (f : string) : bool :=
  forallb (fun c => negb (Ascii.eqb c dquote) && negb (Ascii.eqb c comma)) (list_ascii_of_string f).

(** The type a value must have under its key, after the [switch] of [parseCSV]:
    a number that is not NaN for the integer columns, a number or [null] for
    [Age] and [Fare], a string otherwise. *)
Definition field_typed (k : string) (v : jsval) : bool :=
  if is_int_header k then match v with JsNum f => negb (is_nan f) | _ => false end
  else if is_float_header k then match v with JsNull | JsNum _ => true | JsStr _ => false end
  else match v with JsStr _ => true | _ => false end.

Definition state_quote_free (st : line_state) : bool :=
  forallb quote_free (result st) && quote_free (current st).

Definition CR : string := String (ascii_of_nat 13) EmptyString.

Definition LF : string := String newline EmptyString.

(** The pieces of a split with a prefix glued to the first one. *)
Definition extend_first (pre : string) (pieces : list string) : list string :=
  match pieces with
  | f :: fs => (pre ++ f)%string :: fs
  | [] => [pre]
  end.

(** The commas of a line that stand inside double quotes, [inq] telling
    whether the line starts inside quotes: each quote toggles. *)
Fixpoint quoted_commas (inq : bool) (l : list ascii) : nat :=
  match l with
  | [] => O
  | c :: l' =>
      if Ascii.eqb c dquote then quoted_commas (negb inq) l'
      else if Ascii.eqb c comma && inq then S (quoted_commas inq l')
      else quoted_commas inq l'
  end.

(** A cell whose first character cannot begin a number: not white space, not
    a sign, not a decimal digit, not a point, not the [I] of [Infinity]. *)
Definition starts_non_numeric (v : string) : bool :=
  match list_ascii_of_string v with
  | c :: _ => negb (is_js_space c) && negb (char_is c 43) && negb (char_is c 45) &&
              (10 <=? digit_value c)%Z && negb (char_is c 46) && negb (char_is c 73)
  | [] => false
  end.

(** ** Lemmas on the scanner *)

Lemma line_step_quote (st : line_state) :
  line_step st dquote = {| result := result st; current := current st; inQuotes := negb (inQuotes st) |}.
Proof. reflexivity. Qed.

Lemma line_step_comma (st : line_state) :
  inQuotes st = false ->
  line_step st comma = {| result := result st ++ [current st]; current := EmptyString; inQuotes := false |}.
Proof. intros H. unfold line_step. cbn. now rewrite H. Qed.

(** Characters that are neither quotes nor (outside quotes) separators are
    appended to the current field. *)
Lemma fold_line_append (l : list ascii) (st : line_state) :
  (forall c, In c l -> c <> dquote /\ (inQuotes st = false -> c <> comma)) ->
  fold_left line_step l st =
    {| result := result st; current := (current st ++ string_of_list_ascii l)%string;
       inQuotes := inQuotes st |}.
Proof.
  revert st. induction l as [|c l IH]; intros st H; cbn [fold_left string_of_list_ascii].
  - rewrite string_append_empty_r. now destruct st.
  - destruct (H c (or_introl eq_refl)) as [Hq Hc].
    assert (Hstep : line_step st c =
      {| result := result st; current := (current st ++ String c EmptyString)%string;
         inQuotes := inQuotes st |}).
    { unfold line_step. apply Ascii.eqb_neq in Hq. rewrite Hq.
      destruct (inQuotes st) eqn:E; cbn; [now rewrite andb_false_r|].
      specialize (Hc eq_refl). apply Ascii.eqb_neq in Hc. now rewrite Hc. }
    rewrite Hstep, IH by (intros d Hd; apply H; now right).
    cbn. now rewrite string_append_assoc.
Qed.

Lemma plain_field_chars (f : string) :
  plain_field f = true -> forall c, In c (list_ascii_of_string f) -> c <> dquote /\ c <> comma.
Proof.
  unfold plain_field. rewrite forallb_forall. intros H c Hc.
  specialize (H c Hc). apply andb_true_iff in H as [H1 H2].
  apply negb_true_iff, Ascii.eqb_neq in H1, H2. auto.
Qed.

Lemma quote_free_chars (f : string) :
  quote_free f = true -> forall c, In c (list_ascii_of_string f) -> c <> dquote.
Proof.
  unfold quote_free. rewrite forallb_forall. intros H c Hc.
  specialize (H c Hc). now apply negb_true_iff, Ascii.eqb_neq in H.
Qed.

Lemma fold_plain_field (f : string) (st : line_state) :
  plain_field f = true -> inQuotes st = false ->
  fold_left line_step (list_ascii_of_string f) st =
    {| result := result st; current := (current st ++ f)%string; inQuotes := false |}.
Proof.
  intros Hf Hq. rewrite fold_line_append.
  - now rewrite string_of_list_ascii_of_string, Hq.
  - intros c Hc. destruct (plain_field_chars f Hf c Hc). auto.
Qed.

Lemma fold_quoted_field (f : string) (st : line_state) :
  quote_free f = true -> inQuotes st = false ->
  fold_left line_step (list_ascii_of_string (quote_field f)) st =
    {| result := result st; current := (current st ++ f)%string; inQuotes := false |}.
Proof.
  intros Hf Hq. unfold quote_field. cbn [list_ascii_of_string fold_left].
  rewrite line_step_quote, list_ascii_of_string_append, fold_left_app,
    (fold_line_append (list_ascii_of_string f)).
  - cbn [list_ascii_of_string fold_left]. rewrite line_step_quote. cbn.
    rewrite string_of_list_ascii_of_string, Hq. reflexivity.
  - intros c Hc. split; [exact (quote_free_chars f Hf c Hc)|]. cbn. rewrite Hq. discriminate.
Qed.

Lemma quote_free_append_char (s : string) (c : ascii) :
  quote_free (s ++ String c EmptyString) = quote_free s && negb (Ascii.eqb c dquote).
Proof.
  unfold quote_free. rewrite list_ascii_of_string_append, forallb_app. cbn.
  now rewrite andb_true_r.
Qed.

Lemma fold_state_quote_free (l : list ascii) (st : line_state) :
  state_quote_free st = true -> state_quote_free (fold_left line_step l st) = true.
Proof.
  revert st. induction l as [|c l IH]; intros st H; cbn [fold_left]; [exact H|]. apply IH.
  unfold state_quote_free in *. apply andb_true_iff in H as [Hr Hc].
  unfold line_step. destruct (Ascii.eqb c dquote) eqn:Eq; cbn [result current]; [now rewrite Hr, Hc|].
  destruct (Ascii.eqb c comma && negb (inQuotes st)); cbn [result current].
  - rewrite forallb_app. cbn [forallb]. now rewrite Hr, Hc.
  - now rewrite Hr, quote_free_append_char, Hc, Eq.
Qed.

(** Joining rendered fields with commas and scanning the line gives the
    fields back, for any way of rendering a field that the scanner reads as
    that field. *)
Lemma concat_cons_cons (sep x y : string) (l : list string) :
  String.concat sep (x :: y :: l) = (x ++ sep ++ String.concat sep (y :: l))%string.
Proof. reflexivity. Qed.

Section RenderedLine.
Variable render : string -> string.
Variable admissible : string -> bool.
Hypothesis render_fold : forall f st, admissible f = true -> inQuotes st = false ->
  fold_left line_step (list_ascii_of_string (render f)) st =
    {| result := result st; current := (current st ++ f)%string; inQuotes := false |}.
Hypothesis comma_step : forall st, inQuotes st = false ->
  line_step st comma = {| result := result st ++ [current st]; current := EmptyString; inQuotes := false |}.

Lemma fold_render_line (fs : list string) (f : string) (st : line_state) :
  forallb admissible (f :: fs) = true -> inQuotes st = false ->
  result (fold_left line_step (list_ascii_of_string (render_line (map render (f :: fs)))) st) ++
    [current (fold_left line_step (list_ascii_of_string (render_line (map render (f :: fs)))) st)]
  = result st ++ (current st ++ f)%string :: fs.
Proof.
  revert f st. induction fs as [|g fs IH]; intros f st Hall Hq;
    apply andb_true_iff in Hall as [Hf Hall].
  - unfold render_line. cbn [map String.concat]. rewrite render_fold by assumption. reflexivity.
  - unfold render_line in *. cbn [map] in *. rewrite concat_cons_cons.
    rewrite !list_ascii_of_string_append, !fold_left_app, render_fold by assumption.
    cbn [list_ascii_of_string fold_left]. rewrite comma_step by reflexivity.
    rewrite IH by (assumption || reflexivity).
    cbn. now rewrite <- app_assoc.
Qed.

Lemma parseCSVLine_render (fs : list string) :
  fs <> [] -> forallb admissible fs = true ->
  parseCSVLine (render_line (map render fs)) = fs.
Proof.
  destruct fs as [|f fs]; [contradiction|]. intros _ Hall.
  unfold parseCSVLine. rewrite fold_render_line by auto. reflexivity.
Qed.
End RenderedLine.

Lemma coerce_typed (h v : string) : field_typed h (coerce h v) = true.
Proof.
  unfold field_typed, coerce. destruct (is_int_header h).
  - now rewrite or_num_not_nan.
  - destruct (is_float_header h); [destruct (truthy_str v)|]; reflexivity.
Qed.

Lemma assign_fields_typed (vs : list string) (n : nat) (hs : list string) (o : gmap string jsval) :
  (forall h v, field_typed h (coerce h v) = true) ->
  map_Forall (fun k v => field_typed k v = true) o ->
  map_Forall (fun k v => field_typed k v = true) (assign_fields vs n hs o).
Proof.
  intros Hc. revert n o. induction hs as [|h hs IH]; intros n o Ho; cbn; [exact Ho|].
  apply IH. unfold js_set. destruct (String.eqb h "__proto__"); [exact Ho|].
  apply map_Forall_insert_2; [apply Hc | exact Ho].
Qed.

Lemma assign_fields_notin (vs : list string) (n : nat) (hs : list string)
    (o : gmap string jsval) (h : string) :
  h ∉ hs -> assign_fields vs n hs o !! h = o !! h.
Proof.
  revert n o. induction hs as [|h' hs IH]; intros n o Hn; cbn; [reflexivity|].
  apply not_elem_of_cons in Hn as [Hne Hn]. rewrite IH by exact Hn. unfold js_set.
  destruct (String.eqb h' "__proto__"); [reflexivity|]. apply lookup_insert_ne. congruence.
Qed.

Lemma assign_fields_lookup (vs hs : list string) :
  NoDup hs -> forall n o j h, nth_error hs j = Some h -> h <> "__proto__"%string ->
  assign_fields vs n hs o !! h = Some (coerce h (raw_value (nth_error vs (n + j)))).
Proof.
  induction 1 as [|h' hs Hnotin Hnd IH]; intros n o j h Hj Hp; [destruct j; discriminate|].
  destruct j as [|j]; cbn in Hj |- *.
  - injection Hj as <-. rewrite assign_fields_notin by assumption.
    rewrite Nat.add_0_r. unfold js_set. apply String.eqb_neq in Hp. rewrite Hp.
    apply lookup_insert_eq.
  - rewrite (IH (S n) _ j h Hj Hp). now rewrite Nat.add_succ_r.
Qed.

(** ** The text a line's fields are cut from *)

Lemma concat_cons_nonempty (sep x : string) (l : list string) :
  l <> [] -> String.concat sep (x :: l) = (x ++ sep ++ String.concat sep l)%string.
Proof. destruct l; [contradiction | reflexivity]. Qed.

Lemma snoc_nonempty {A} (l : list A) (a : A) : l ++ [a] <> [].
Proof. destruct l; discriminate. Qed.

Lemma concat_snoc_append (sep a b : string) (l : list string) :
  String.concat sep (l ++ [(a ++ b)%string]) = (String.concat sep (l ++ [a]) ++ b)%string.
Proof.
  induction l as [|x l IH]; [reflexivity|]. cbn [app].
  rewrite !concat_cons_nonempty by apply snoc_nonempty. rewrite IH. autorewrite with titanic_rw. reflexivity.
Qed.

Lemma concat_snoc_empty (sep a : string) (l : list string) :
  String.concat sep ((l ++ [a]) ++ [EmptyString]) = (String.concat sep (l ++ [a]) ++ sep)%string.
Proof.
  induction l as [|x l IH]; [cbn; now rewrite string_append_empty_r|]. cbn [app].
  rewrite !concat_cons_nonempty by apply snoc_nonempty. rewrite IH. autorewrite with titanic_rw. reflexivity.
Qed.

(** Every character the scanner reads but a double quote ends up, in order,
    in a field or as the comma between two fields. *)
Lemma fold_line_concat (l : list ascii) (st : line_state) :
  let st' := fold_left line_step l st in
  String.concat (String comma EmptyString) (result st' ++ [current st']) =
    (String.concat (String comma EmptyString) (result st ++ [current st]) ++
     remove_char dquote (string_of_list_ascii l))%string.
Proof.
  revert st. induction l as [|c l IH]; intros st; cbn [fold_left string_of_list_ascii remove_char].
  - now rewrite string_append_empty_r.
  - rewrite IH. unfold line_step.
    destruct (Ascii.eqb c dquote) eqn:Hq; [reflexivity|].
    destruct (Ascii.eqb c comma && negb (inQuotes st)) eqn:Hc; cbn [result current].
    + apply andb_true_iff in Hc as [Hc _]. apply Ascii.eqb_eq in Hc as ->.
      rewrite concat_snoc_empty. autorewrite with titanic_rw. reflexivity.
    + rewrite concat_snoc_append. autorewrite with titanic_rw. reflexivity.
Qed.

(** ** The scanner and [split] *)

Lemma js_split_nonempty (c : ascii) (s : string) : js_split c s <> [].
Proof.
  induction s as [|d s IH]; cbn; [discriminate|].
  destruct (Ascii.eqb d c); [discriminate|]. destruct (js_split c s); discriminate.
Qed.

(** Outside quotes and with no quote ahead, the scanner cuts the rest of the
    line where [split] does. *)
Lemma fold_line_split (l : list ascii) (st : line_state) :
  inQuotes st = false -> forallb (fun c => negb (Ascii.eqb c dquote)) l = true ->
  let st' := fold_left line_step l st in
  result st' ++ [current st'] =
    result st ++ extend_first (current st) (js_split comma (string_of_list_ascii l)).
Proof.
  revert st. induction l as [|c l IH]; intros st Hq Hl; cbn [fold_left string_of_list_ascii js_split].
  - cbn. now rewrite string_append_empty_r.
  - cbn [forallb] in Hl. apply andb_true_iff in Hl as [Hc Hl]. apply negb_true_iff in Hc.
    rewrite IH; [| unfold line_step; rewrite Hc; destruct (_ && _); exact Hq | exact Hl].
    unfold line_step. rewrite Hc, Hq. cbn [negb andb].
    destruct (Ascii.eqb c comma) eqn:Ec; cbn [andb negb result current].
    + destruct (js_split comma (string_of_list_ascii l)) as [|f fs] eqn:Hs;
        [exfalso; exact (js_split_nonempty _ _ Hs)|].
      cbn [extend_first]. rewrite <- app_assoc. cbn. now rewrite string_append_empty_r.
    + destruct (js_split comma (string_of_list_ascii l)) as [|f fs];
        cbn [extend_first]; now autorewrite with titanic_rw.
Qed.

(** The number of records: one per line feed of the trimmed text. *)
Lemma parseCSV_length_count (csvText : string) :
  List.length (parseCSV csvText) =
    count_occ ascii_dec (list_ascii_of_string (js_trim csvText)) newline.
Proof. unfold parseCSV. rewrite length_map, length_skipn, js_split_length. lia. Qed.

(** ** Quotes, CR and the header *)

(** The scanner is inside quotes after an odd number of quotes. *)
Lemma fold_inQuotes (l : list ascii) (st : line_state) :
  inQuotes (fold_left line_step l st) =
    xorb (inQuotes st) (Nat.odd (count_occ ascii_dec l dquote)).
Proof.
  revert st. induction l as [|c l IH]; intros st; cbn [fold_left count_occ].
  - cbn. now rewrite xorb_false_r.
  - rewrite IH. unfold line_step. destruct (ascii_dec c dquote) as [->|Hne].
    + rewrite Ascii.eqb_refl. cbn [inQuotes]. rewrite Nat.odd_succ, <- Nat.negb_odd.
      destruct (inQuotes st), (Nat.odd _); reflexivity.
    + apply Ascii.eqb_neq in Hne. rewrite Hne.
      destruct (Ascii.eqb c comma && negb (inQuotes st)); reflexivity.
Qed.

(** Every comma of the line either closes a field or is counted as quoted. *)
Lemma fold_result_length (l : list ascii) (st : line_state) :
  List.length (result (fold_left line_step l st)) + quoted_commas (inQuotes st) l =
    List.length (result st) + count_occ ascii_dec l comma.
Proof.
  revert st. induction l as [|c l IH]; intros st; cbn [fold_left count_occ quoted_commas]; [lia|].
  remember (line_step st c) as st' eqn:Hst. specialize (IH st'). unfold line_step in Hst.
  destruct (ascii_dec c comma) as [->|Hne].
  - replace (Ascii.eqb comma dquote) with false in * by reflexivity. rewrite Ascii.eqb_refl in *.
    destruct (inQuotes st); cbn [andb negb] in Hst |- *; subst st'; cbn in IH;
      rewrite ?length_app in IH; cbn in IH; lia.
  - apply Ascii.eqb_neq in Hne. rewrite Hne in *. cbn [andb] in Hst |- *.
    destruct (Ascii.eqb c dquote); subst st'; cbn in IH; lia.
Qed.

(** A last character that is not the separator extends the last piece of a
    split. *)
Lemma js_split_snoc (sep c : ascii) (s : string) :
  c <> sep ->
  js_split sep (s ++ String c EmptyString) =
    removelast (js_split sep s) ++ [(List.last (js_split sep s) EmptyString ++ String c EmptyString)%string].
Proof.
  intros Hc. apply Ascii.eqb_neq in Hc.
  induction s as [|d s IH]; [simpl; now rewrite Hc|]. simpl. rewrite IH.
  destruct (js_split sep s) as [|g gs] eqn:E2; [exfalso; exact (js_split_nonempty _ _ E2)|].
  destruct (Ascii.eqb d sep); [destruct gs; reflexivity|].
  destruct gs as [|g' gs]; [reflexivity|].
  cbn [removelast app]. reflexivity.
Qed.

Lemma assign_fields_app (vs : list string) (n : nat) (hs hs' : list string) (o : gmap string jsval) :
  assign_fields vs n (hs ++ hs') o = assign_fields vs (n + List.length hs) hs' (assign_fields vs n hs o).
Proof.
  revert n o. induction hs as [|h hs IH]; intros n o; cbn; [now rewrite Nat.add_0_r|].
  rewrite IH. f_equal. lia.
Qed.

(** The last header of a row is assigned last, whatever the others are. *)
Lemma assign_fields_last (vs hs : list string) (h : string) (o : gmap string jsval) :
  h <> "__proto__"%string ->
  assign_fields vs 0 (hs ++ [h]) o !! h =
    Some (coerce h (raw_value (nth_error vs (List.length hs)))).
Proof.
  intros Hp. rewrite assign_fields_app. cbn. unfold js_set.
  destruct (String.eqb h "__proto__") eqn:E; [apply String.eqb_eq in E; contradiction|].
  rewrite lookup_insert. destruct (decide (h = h)); [reflexivity | contradiction].
Qed.

(** A name that ends with CR is none of the names the switch tests. *)
Lemma ends_CR_untyped (h : string) :
  is_int_header (h ++ CR) = false /\ is_float_header (h ++ CR) = false /\
  (h ++ CR)%string <> "__proto__"%string.
Proof.
  assert (Hne : forall s, String.eqb (h ++ CR) s = true ->
                rev (list_ascii_of_string s) = ascii_of_nat 13 :: rev (list_ascii_of_string h)).
  { intros s E. apply String.eqb_eq in E. subst s.
    rewrite list_ascii_of_string_append, rev_app_distr. reflexivity. }
  unfold is_int_header, is_float_header, int_headers, float_headers.
  split; [|split].
  - apply not_true_iff_false. rewrite existsb_exists. intros (s & Hin & E).
    apply Hne in E. repeat destruct Hin as [<-|Hin]; try discriminate E; contradiction.
  - apply not_true_iff_false. rewrite existsb_exists. intros (s & Hin & E).
    apply Hne in E. repeat destruct Hin as [<-|Hin]; try discriminate E; contradiction.
  - intros E. apply String.eqb_eq, Hne in E. discriminate E.
Qed.

(** [assign_fields] never stores under [__proto__]. *)
Lemma assign_fields_no_proto (vs : list string) (n : nat) (hs : list string) (o : gmap string jsval) :
  o !! "__proto__"%string = None -> assign_fields vs n hs o !! "__proto__"%string = None.
Proof.
  revert n o. induction hs as [|h hs IH]; intros n o Ho; cbn; [exact Ho|].
  apply IH. unfold js_set. destruct (String.eqb h "__proto__") eqn:E; [exact Ho|].
  rewrite lookup_insert_ne; [exact Ho|]. intros Eh. subst h. rewrite String.eqb_refl in E. discriminate E.
Qed.

(** [parseFloat] and [parseInt] find no numeral in a cell that starts with a
    character no numeral starts with. *)
Lemma parse_non_numeric (v : string) :
  starts_non_numeric v = true -> parseFloat v = nan /\ parseInt v = nan.
Proof.
  unfold starts_non_numeric, parseFloat, parseInt.
  destruct (list_ascii_of_string v) as [|c rest]; [discriminate|].
  rewrite !andb_true_iff, !negb_true_iff, Z.leb_le. intros (((((Hsp & Hp) & Hm) & Hd) & Hpt) & HI).
  cbn [drop_spaces]. rewrite Hsp. cbn [take_sign]. rewrite Hm, Hp.
  assert (Hspan : span_digits 10 (c :: rest) = ([], c :: rest)).
  { cbn. replace (digit_value c <? 10)%Z with false by (symmetry; apply Z.ltb_ge; lia). reflexivity. }
  assert (Hzero : char_is c 48 = false).
  { unfold char_is in *. apply Nat.eqb_neq. intros E.
    unfold digit_value in Hd. rewrite E in Hd. vm_compute in Hd. apply Hd. reflexivity. }
  split.
  - assert (Hpre : is_prefix infinity_chars (c :: rest) = false).
    { change (is_prefix infinity_chars (c :: rest)) with
        (Ascii.eqb "I"%char c && is_prefix (list_ascii_of_string "nfinity") rest).
      replace (Ascii.eqb "I"%char c) with false; [reflexivity|].
      symmetry. apply Ascii.eqb_neq. intros <-. vm_compute in HI. discriminate HI. }
    rewrite Hpre, Hspan. cbn. rewrite Hpt. reflexivity.
  - destruct rest as [|c1 rest]; cbv beta iota zeta; [rewrite Hspan; reflexivity|].
    rewrite Hzero. cbn [andb]. cbv beta iota zeta. rewrite Hspan. reflexivity.
Qed.

(** ** Theorems *)

(** C9: a non-empty list of fields without quotes or commas, joined with commas,
    is split by [parseCSVLine] back into exactly those fields. *)
Theorem parseCSVLine_roundtrip_plain (fields : list string) :
  fields <> [] -> forallb plain_field fields = true ->
  parseCSVLine (render_line fields) = fields.
Proof.
  intros Hne Hall. rewrite <- (map_id fields) at 1.
  apply (parseCSVLine_render (fun f => f) plain_field); [| exact line_step_comma | assumption..].
  intros f st Hf Hq. exact (fold_plain_field f st Hf Hq).
Qed.

Lemma parseCSVLine_roundtrip_plain_witness :
  parseCSVLine (render_line ["892"; "0"; "3"; "male"; "34.5"]%string) = ["892"; "0"; "3"; "male"; "34.5"]%string.
Proof. apply parseCSVLine_roundtrip_plain; [discriminate | reflexivity]. Defined.

(** C10: fields without quote characters, each wrapped in quotes and joined with
    commas, are split back into exactly those fields, the commas inside them
    kept (the round trip of section 8 of the spec). *)
Theorem parseCSVLine_roundtrip_quoted (fields : list string) :
  fields <> [] -> forallb quote_free fields = true ->
  parseCSVLine (render_line (map quote_field fields)) = fields.
Proof.
  intros Hne Hall. apply (parseCSVLine_render quote_field quote_free); [| exact line_step_comma | assumption..].
  exact fold_quoted_field.
Qed.

Lemma parseCSVLine_roundtrip_quoted_witness :
  parseCSVLine (render_line (map quote_field ["Kelly, Mr. James"; "male"]%string)) =
    ["Kelly, Mr. James"; "male"]%string.
Proof. apply parseCSVLine_roundtrip_quoted; [discriminate | reflexivity]. Defined.

(** C11: no field [parseCSVLine] returns contains a double quote, whatever the
    line (so the quote-removing [replace] of [parseCSV] never changes a value). *)
Theorem parseCSVLine_quote_free (line : string) :
  forallb quote_free (parseCSVLine line) = true.
Proof.
  unfold parseCSVLine.
  pose proof (fold_state_quote_free (list_ascii_of_string line) line_init eq_refl) as H.
  unfold state_quote_free in H. apply andb_true_iff in H as [Hr Hc].
  rewrite forallb_app. cbn [forallb]. now rewrite Hr, Hc.
Qed.

(** C12: [parseCSV] returns one record per line after the header: as many
    records as the trimmed text has line feeds (none for an empty or blank
    text). *)
Theorem parseCSV_length (csvText : string) :
  List.length (parseCSV csvText) =
    count_occ ascii_dec (list_ascii_of_string (js_trim csvText)) newline.
Proof. exact (parseCSV_length_count csvText). Qed.

(** C13: every record [parseCSV] builds is well typed: under an integer column
    name a number that is not NaN, under [Age] and [Fare] a number or [null],
    under any other name a string. *)
Theorem parseCSV_rows_typed (csvText : string) :
  Forall (map_Forall (fun k v => field_typed k v = true)) (parseCSV csvText).
Proof.
  unfold parseCSV. apply Forall_forall. intros row Hin.
  apply list_elem_of_In, in_map_iff in Hin as [line [<- _]].
  apply assign_fields_typed; [exact coerce_typed | apply map_Forall_empty].
Qed.

(** C14: columns are mapped by position in the header row: when the header
    names are distinct, the value of a record under the header at position
    [index] (any name but [__proto__]) is the coerced field at position
    [index] of the row (the empty string when the row is shorter). *)
Theorem parse_row_by_header (headers : list string) (line : string) (index : nat) (header : string) :
  NoDup headers -> nth_error headers index = Some header -> header <> "__proto__"%string ->
  parse_row headers line !! header =
    Some (coerce header (raw_value (nth_error (parseCSVLine line) index))).
Proof. intros Hnd Hi Hp. exact (assign_fields_lookup _ _ Hnd 0 ∅ index header Hi Hp). Qed.

Lemma parse_row_by_header_witness :
  parse_row ["Sex"; "Age"]%string "female,38" !! "Age"%string =
    Some (coerce "Age" (raw_value (nth_error (parseCSVLine "female,38") 1))).
Proof.
  apply parse_row_by_header; [| reflexivity | discriminate].
  apply NoDup_cons_2; [|apply NoDup_cons_2; [apply not_elem_of_nil | apply NoDup_nil_2]].
  apply not_elem_of_cons. split; [discriminate | apply not_elem_of_nil].
Defined.

(** C15: with CRLF line ends the header line keeps its CR, so the last header
    name is the intended one followed by CR: for every header line and every
    row, that name is none of the names the [switch] tests, and the last cell
    of the row is stored under it as a raw string (a [Fare] or [Embarked] in
    last position is never read as a number). *)
Theorem crlf_last_column_text (hl line : string) :
  let hs := js_split comma (hl ++ CR) in
  List.last hs EmptyString = (List.last (js_split comma hl) EmptyString ++ CR)%string /\
  parse_row hs line !! List.last hs EmptyString =
    Some (JsStr (raw_value (nth_error (parseCSVLine line) (pred (List.length hs))))).
Proof.
  intros hs. set (h := List.last (js_split comma hl) EmptyString).
  assert (Hsnoc : hs = removelast (js_split comma hl) ++ [(h ++ CR)%string])
    by (exact (js_split_snoc comma (ascii_of_nat 13) hl ltac:(discriminate))).
  assert (Hlast : List.last hs EmptyString = (h ++ CR)%string) by (rewrite Hsnoc; apply last_last).
  split; [exact Hlast|]. rewrite Hlast.
  destruct (ends_CR_untyped h) as (Hi & Hf & Hp).
  unfold parse_row. rewrite Hsnoc, assign_fields_last by exact Hp.
  rewrite length_app, Nat.add_comm. cbn [List.length Nat.pred Nat.add].
  unfold coerce. rewrite Hi, Hf. reflexivity.
Qed.

(** C16: a cell that starts with a character no numeral starts with (a letter
    but [I], a punctuation sign, ...) is not rejected: under [Age] or [Fare] it
    is stored as NaN, since [value ? parseFloat(value) : null] only tests for
    the empty string; under an integer column it is stored as 0, since
    [parseInt(value) || 0] turns NaN into 0, so a malformed [Survived] reads as
    a death. *)
Theorem malformed_cell_values (h v : string) :
  starts_non_numeric v = true ->
  (is_float_header h = true -> coerce h v = JsNum nan) /\
  (is_int_header h = true -> coerce h v = JsNum 0%float).
Proof.
  intros Hv. destruct (parse_non_numeric v Hv) as [Hf Hi].
  assert (Ht : truthy_str v = true).
  { unfold starts_non_numeric in Hv. destruct v; [discriminate | reflexivity]. }
  split; intros Hh; unfold coerce; rewrite Hh.
  - destruct (is_int_header h) eqn:E; [|now rewrite Ht, Hf].
    exfalso. revert E Hh. unfold is_int_header, is_float_header.
    rewrite !existsb_exists. intros (x & Hx & Ex) (y & Hy & Ey).
    apply String.eqb_eq in Ex, Ey. subst x y.
    repeat destruct Hx as [Hx|Hx]; subst; repeat destruct Hy as [Hy|Hy]; try discriminate Hy; contradiction.
  - rewrite Hi. reflexivity.
Qed.

Lemma malformed_cell_values_witness :
  (is_float_header "Age" = true -> coerce "Age" "unknown" = JsNum nan) /\
  (is_int_header "Age" = true -> coerce "Age" "unknown" = JsNum 0%float).
Proof. apply malformed_cell_values. reflexivity. Defined.

(** C17: after an unmatched double quote the scanner stays inside quotes to
    the end of the line: for every line that has an even number of quotes
    followed by a quote and a quote-free rest, the rest, commas included, is
    appended to the field the quote opened, and no field is added. *)
Theorem unmatched_quote_swallows_rest (pre rest : string) :
  Nat.even (count_occ ascii_dec (list_ascii_of_string pre) dquote) = true ->
  quote_free rest = true ->
  parseCSVLine (pre ++ String dquote rest) =
    removelast (parseCSVLine pre) ++ [(List.last (parseCSVLine pre) EmptyString ++ rest)%string].
Proof.
  intros He Hq. unfold parseCSVLine.
  rewrite list_ascii_of_string_append, fold_left_app. cbn [list_ascii_of_string fold_left].
  set (st := fold_left line_step (list_ascii_of_string pre) line_init).
  assert (Hin : inQuotes st = false).
  { unfold st. rewrite fold_inQuotes, <- Nat.negb_even, He. reflexivity. }
  rewrite line_step_quote, fold_line_append.
  - cbn [result current]. rewrite string_of_list_ascii_of_string, removelast_last, last_last. reflexivity.
  - intros c Hc. split; [|cbn; rewrite Hin; discriminate].
    exact (quote_free_chars rest Hq c Hc).
Qed.

Lemma unmatched_quote_swallows_rest_witness :
  parseCSVLine ("a," ++ String dquote "b,c")%string =
    removelast (parseCSVLine "a,") ++ [(List.last (parseCSVLine "a,") EmptyString ++ "b,c")%string].
Proof. apply unmatched_quote_swallows_rest; reflexivity. Defined.

(** C29: no record ever has a property [__proto__]: for every text, the
    assignment [passenger['__proto__'] = value] runs the setter inherited from
    [Object.prototype] and stores nothing, whatever the header and the row. *)
Theorem proto_never_stored (csvText : string) :
  Forall (fun o => o !! "__proto__"%string = None) (parseCSV csvText).
Proof.
  unfold parseCSV. apply Forall_forall. intros o Hin.
  apply list_elem_of_In, in_map_iff in Hin as [line [<- _]].
  apply assign_fields_no_proto. reflexivity.
Qed.

(** C30: a cell of an integer column ([PassengerId], [Survived], [Pclass],
    [SibSp], [Parch]) holding a decimal numeral below 2^53 is stored as the
    Number value of that integer, and that Number denotes the integer exactly:
    [parseInt] and the [|| 0] default of line 82 lose nothing. *)
Theorem int_column_exact (h : string) (ds : list Z) :
  is_int_header h = true -> ds <> [] -> Forall (fun d => 0 <= d < 10)%Z ds ->
  (Z_of_digits 10 ds < 2 ^ 53)%Z ->
  coerce h (digits_string ds) = JsNum (float_of_Z (Z_of_digits 10 ds)) /\
  exists q, float_to_Q (float_of_Z (Z_of_digits 10 ds)) = Some q /\
    QArith_base.Qeq q (QArith_base.inject_Z (Z_of_digits 10 ds)).
Proof.
  intros Hh Hne Hall Hlt. pose proof (Z_of_digits_nonneg ds Hall) as Hnn.
  split; [|apply float_of_Z_exact; lia].
  unfold coerce. rewrite Hh, parseInt_digits by assumption. f_equal.
  destruct (Z.eq_dec (Z_of_digits 10 ds) 0%Z) as [->|Hz]; [reflexivity|].
  apply or_num_truthy, float_of_Z_truthy. lia.
Qed.

Lemma int_column_exact_witness :
  coerce "PassengerId" (digits_string [8; 9; 2]%Z) = JsNum (float_of_Z (Z_of_digits 10 [8; 9; 2]%Z)) /\
  exists q, float_to_Q (float_of_Z (Z_of_digits 10 [8; 9; 2]%Z)) = Some q /\
    QArith_base.Qeq q (QArith_base.inject_Z (Z_of_digits 10 [8; 9; 2]%Z)).
Proof.
  apply int_column_exact; [reflexivity | discriminate | repeat constructor; lia | vm_compute; reflexivity].
Defined.

(** C31: the scanner loses nothing but the double quotes: the fields of
    [parseCSVLine line] joined with commas give back [line] with every double
    quote removed (a comma inside quotes stays in its field, a comma outside
    quotes is the boundary between two fields). *)
Theorem parseCSVLine_concat (line : string) :
  String.concat "," (parseCSVLine line) = remove_char dquote line.
Proof.
  unfold parseCSVLine. change ","%string with (String comma EmptyString).
  rewrite fold_line_concat, string_of_list_ascii_of_string. reflexivity.
Qed.

(** C39: on a line with no double quote, the quote-aware [parseCSVLine] and
    the plain [split(',')] that [parseCSV] applies to the header line give the
    same fields: header and rows are cut alike unless quotes are involved. *)
Theorem parseCSVLine_split_equiv (line : string) :
  quote_free line = true -> parseCSVLine line = js_split comma line.
Proof.
  intros Hq. unfold parseCSVLine.
  rewrite fold_line_split by (exact Hq || reflexivity). rewrite string_of_list_ascii_of_string.
  cbn [result current line_init]. destruct (js_split comma line) as [|f fs] eqn:Hs;
    [exfalso; exact (js_split_nonempty _ _ Hs) | reflexivity].
Qed.

Lemma parseCSVLine_split_equiv_witness :
  parseCSVLine "892,0,3,Kelly,male,34.5" = js_split comma "892,0,3,Kelly,male,34.5".
Proof. apply parseCSVLine_split_equiv. reflexivity. Defined.

(** C40: the header line is split with a plain [split(',')] but the rows with
    the quote-aware scanner: on every line the plain split has one more
    piece per comma inside quotes than [parseCSVLine] has fields.  A header
    that quotes a name holding commas therefore has that many extra names,
    and every later column is read under a name shifted by that many
    places. *)
Theorem header_split_extra_names (line : string) :
  List.length (js_split comma line) =
    List.length (parseCSVLine line) + quoted_commas false (list_ascii_of_string line).
Proof.
  rewrite js_split_length. unfold parseCSVLine. rewrite length_app.
  pose proof (fold_result_length (list_ascii_of_string line) line_init) as H.
  cbn [result inQuotes line_init List.length] in H |- *. lia.
Qed.
