(* ===== verification/Summarizer.v ===== *)
(** * DatasetSummarizer: [calculateModelStats] (TitanicPredictor.tsx, lines 122-145)

    [calculateModelStats] is written against the [SurvivalModel] interface of
    [Scorer] (the section's [Context]); the component calls it with
    [predictSurvival], which is the instance [predictSurvival_model].  Counts
    are [nat]: the [filter(...).length] and the [correctPredictions++] counter
    of the source stay far below 2^53, where JavaScript numbers are exact
    integers.  The accuracy is computed in binary64 as the source does:
    [(correctPredictions / totalPassengers) * 100].

    The float bound on the accuracy is checked by evaluation for every data set
    of at most [max_rows] = 2224 records (the ship's full complement, more than
    the 418 rows of the test file and the 891 of the training file): the
    checker [check_totals] walks every pair of counts, and [check_totals_sound]
    turns its verdict into the statement for all such pairs.  In the same way
    [check_monotone] checks that one more correct prediction always gives a
    strictly larger float accuracy, and [ltb_trans_nonneg] chains these steps
    into strict monotonicity at every fixed size. *)

From Stdlib Require Import ZArith List String Ascii Bool Lia Floats.
From S2P Require Import Prelude JsRuntime Scorer.
Import ListNotations.

#[local] Set Warnings "-inexact-float".
#[local] Open Scope js_scope.

Record ModelStats : Type := mkModelStats {
  accuracy : float;
  totalPassengers : nat;
  survivedCount : nat;
  deathCount : nat
}.

(** The Number value of a count. *)
Definition float_of_nat (n : nat) : float := float_of_Z (Z.of_nat n).

Section Stats.
Context `{M : SurvivalModel}.

Definition is_survivor (p : Passenger) : bool := Survived p === Some 1%float.

(** The test of lines 131-132. *)
Definition prediction_correct (passenger : Passenger) : bool :=
  let predicted := predict passenger in
  (survived predicted && (Survived passenger === Some 1%float)) ||
  (negb (survived predicted) && (Survived passenger === Some 0%float)).

(** The [forEach] loop of lines 129-135. *)
Definition count_correct (passengers : list Passenger) : nat :=
  fold_left (fun correctPredictions passenger =>
               if prediction_correct passenger then S correctPredictions else correctPredictions)
            passengers 0.

Definition calculateModelStats (passengers : list Passenger) : ModelStats :=
  let totalPassengers := List.length passengers in
  let survivedCount := List.length (filter is_survivor passengers) in
  let deathCount := totalPassengers - survivedCount in
  let correctPredictions := count_correct passengers in
  let accuracy := (float_of_nat correctPredictions / float_of_nat totalPassengers * 100)%float in
  {| accuracy := accuracy; totalPassengers := totalPassengers;
     survivedCount := survivedCount; deathCount := deathCount |}.
End Stats.

(** ** The bounded check of the accuracy *)

Definition max_rows : nat := 2224.

Definition percent_ok (x : float) : bool := PrimFloat.leb 0 x && PrimFloat.leb x 100.

Fixpoint check_counts (ft : float) (c : nat) (fc : float) : bool :=
  percent_ok (fc / ft * 100)%float &&
  match c with O => true | S c' => check_counts ft c' (fc - 1)%float end.

Fixpoint check_totals (t : nat) : bool :=
  match t with
  | O => true
  | S t' => check_counts (float_of_nat t) t (float_of_nat t) && check_totals t'
  end.

(** Counting down by one in floats visits the Number values of the counts. *)
Fixpoint check_pred (n : nat) : bool :=
  match n with
  | O => true
  | S n' => PrimFloat.Leibniz.eqb (float_of_nat n - 1)%float (float_of_nat n') && check_pred n'
  end.

(** At a total [ft] and counts [c], [c - 1], ..., 0 (with [fc] the Number
    value of [c]): one more correct prediction gives a strictly higher
    accuracy, and no correct prediction gives exactly 0. *)
Fixpoint check_steps (ft : float) (c : nat) (fc : float) : bool :=
  match c with
  | O => PrimFloat.Leibniz.eqb (fc / ft * 100)%float 0%float
  | S c' => PrimFloat.ltb ((fc - 1) / ft * 100)%float (fc / ft * 100)%float &&
            check_steps ft c' (fc - 1)%float
  end.

(** For every total up to [t]: the steps above, and all predictions correct
    gives exactly 100. *)
Fixpoint check_monotone (t : nat) : bool :=
  match t with
  | O => true
  | S t' => PrimFloat.Leibniz.eqb (float_of_nat t / float_of_nat t * 100)%float 100%float &&
            check_steps (float_of_nat t) t (float_of_nat t) && check_monotone t'
  end.

(** A record the accuracy can count: its [Survived] label is 1 or 0. *)
Definition is_labelled (p : Passenger) : bool :=
  (Survived p === Some 1%float) || (Survived p === Some 0%float).

Definition sample_passengers : list Passenger :=
  [form_passenger "male" 3 30 0 0 15; form_passenger "female" 1 10 1 1 80].

(** ** Lemmas *)

Lemma fold_count_filter {A} (f : A -> bool) (l : list A) (k : nat) :
  fold_left (fun n x => if f x then S n else n) l k = k + List.length (filter f l).
Proof.
  revert k. induction l as [|x l IH]; intros k; cbn; [lia|].
  destruct (f x); rewrite IH; cbn; lia.
Qed.

Lemma count_correct_le `{M : SurvivalModel} (passengers : list Passenger) :
  count_correct passengers <= List.length passengers.
Proof. unfold count_correct. rewrite fold_count_filter. pose proof (length_filter_le prediction_correct passengers). lia. Qed.

Lemma check_pred_sound (n : nat) :
  check_pred n = true -> forall m, S m <= n -> (float_of_nat (S m) - 1)%float = float_of_nat m.
Proof.
  induction n as [|n IH]; cbn [check_pred]; intros H m Hm; [lia|].
  apply andb_true_iff in H as [H1 H2].
  destruct (Nat.eq_dec m n) as [->|Hne]; [now apply FloatAxioms.Leibniz.eqb_spec in H1|].
  apply IH; [exact H2 | lia].
Qed.

Lemma check_counts_sound (ft : float) (c : nat) (fc : float) :
  check_counts ft c fc = true -> fc = float_of_nat c ->
  (forall m, S m <= c -> (float_of_nat (S m) - 1)%float = float_of_nat m) ->
  forall c', c' <= c -> percent_ok (float_of_nat c' / ft * 100)%float = true.
Proof.
  revert fc. induction c as [|c IH]; intros fc H Hfc Hp c' Hc'; cbn [check_counts] in H;
    apply andb_true_iff in H as [H1 H2]; subst fc.
  - replace c' with 0 by lia. exact H1.
  - destruct (Nat.eq_dec c' (S c)) as [->|Hne]; [exact H1|].
    apply (IH (float_of_nat (S c) - 1)%float); [exact H2 | apply Hp; lia | intros; apply Hp; lia | lia].
Qed.

Lemma check_totals_sound (n : nat) :
  check_totals n = true ->
  (forall m, S m <= n -> (float_of_nat (S m) - 1)%float = float_of_nat m) ->
  forall t c, 1 <= t <= n -> c <= t -> percent_ok (float_of_nat c / float_of_nat t * 100)%float = true.
Proof.
  induction n as [|n IH]; intros H Hp t c Ht Hc; [lia|]. cbn [check_totals] in H.
  apply andb_true_iff in H as [H1 H2].
  destruct (Nat.eq_dec t (S n)) as [->|Hne].
  - apply (check_counts_sound _ _ _ H1 eq_refl); [intros; apply Hp; lia | exact Hc].
  - apply IH; [exact H2 | intros; apply Hp; lia | lia | exact Hc].
Qed.

Lemma percent_ok_counts (t c : nat) :
  1 <= t <= max_rows -> c <= t -> percent_ok (float_of_nat c / float_of_nat t * 100)%float = true.
Proof.
  apply check_totals_sound; [vm_compute; reflexivity|].
  apply check_pred_sound. vm_compute. reflexivity.
Qed.

Lemma check_steps_sound (ft : float) (c : nat) (fc : float) :
  check_steps ft c fc = true -> fc = float_of_nat c ->
  (forall m, S m <= c -> (float_of_nat (S m) - 1)%float = float_of_nat m) ->
  (float_of_nat 0 / ft * 100)%float = 0%float /\
  forall m, S m <= c ->
    PrimFloat.ltb (float_of_nat m / ft * 100)%float (float_of_nat (S m) / ft * 100)%float = true.
Proof.
  revert fc. induction c as [|c IH]; intros fc H Hfc Hp; cbn [check_steps] in H; subst fc.
  - apply FloatAxioms.Leibniz.eqb_spec in H. split; [exact H | intros; lia].
  - apply andb_true_iff in H as [H1 H2]. rewrite (Hp c (le_n _)) in H1, H2.
    destruct (IH (float_of_nat c) H2 eq_refl) as [H0 Hs]; [intros; apply Hp; lia|].
    split; [exact H0|]. intros m Hm. destruct (Nat.eq_dec m c) as [->|Hne]; [exact H1|].
    apply Hs. lia.
Qed.

Lemma check_monotone_sound (n : nat) :
  check_monotone n = true ->
  (forall m, S m <= n -> (float_of_nat (S m) - 1)%float = float_of_nat m) ->
  forall t, 1 <= t <= n ->
    (float_of_nat t / float_of_nat t * 100)%float = 100%float /\
    (float_of_nat 0 / float_of_nat t * 100)%float = 0%float /\
    forall m, S m <= t -> PrimFloat.ltb (float_of_nat m / float_of_nat t * 100)%float
                                        (float_of_nat (S m) / float_of_nat t * 100)%float = true.
Proof.
  induction n as [|n IH]; intros H Hp t Ht; [lia|]. cbn [check_monotone] in H.
  apply andb_true_iff in H as [H H3]. apply andb_true_iff in H as [H1 H2].
  destruct (Nat.eq_dec t (S n)) as [->|Hne].
  - apply FloatAxioms.Leibniz.eqb_spec in H1. split; [exact H1|].
    apply (check_steps_sound _ _ _ H2 eq_refl). intros; apply Hp; lia.
  - apply IH; [exact H3 | intros; apply Hp; lia | lia].
Qed.

(** The accuracy as a function of the count of correct predictions, at a
    total of 1 to [max_rows]. *)
Lemma accuracy_steps (t : nat) :
  1 <= t <= max_rows ->
  (float_of_nat t / float_of_nat t * 100)%float = 100%float /\
  (float_of_nat 0 / float_of_nat t * 100)%float = 0%float /\
  forall c c', c < c' <= t -> PrimFloat.ltb (float_of_nat c / float_of_nat t * 100)%float
                                            (float_of_nat c' / float_of_nat t * 100)%float = true.
Proof.
  intros Ht. destruct (check_monotone_sound max_rows ltac:(vm_compute; reflexivity)
                         (check_pred_sound max_rows ltac:(vm_compute; reflexivity)) t Ht)
    as (H100 & H0 & Hs).
  split; [exact H100 | split; [exact H0|]].
  intros c c' [Hc Hc']. induction Hc as [|c' Hc IH]; [apply Hs; lia|].
  apply (ltb_trans_nonneg _ (float_of_nat c' / float_of_nat t * 100)%float).
  - pose proof (percent_ok_counts t c Ht ltac:(lia)) as Hok. now apply andb_true_iff in Hok as [Hok _].
  - apply IH. lia.
  - apply Hs. lia.
Qed.

Lemma count_correct_labelled `{M : SurvivalModel} (passengers : list Passenger) :
  count_correct passengers <= List.length (filter is_labelled passengers).
Proof.
  unfold count_correct. rewrite fold_count_filter. cbn.
  apply length_filter_mono. intros p. unfold prediction_correct, is_labelled.
  destruct (Survived p === Some 1%float), (Survived p === Some 0%float), (survived (predict p)); auto.
Qed.

(** ** Theorems *)

(** C18: for every scorer and any two data sets of the same size, 1 to
    [max_rows] records, the one with more correct predictions shows a strictly
    higher accuracy (rounding never makes two counts tie or cross), and the
    accuracy is exactly 100 when, and only when, every prediction is
    correct. *)
Theorem accuracy_strictly_monotone `{M : SurvivalModel} (passengers passengers' : list Passenger) :
  1 <= List.length passengers <= max_rows -> List.length passengers' = List.length passengers ->
  (count_correct passengers < count_correct passengers' ->
     PrimFloat.ltb (accuracy (calculateModelStats passengers))
                   (accuracy (calculateModelStats passengers')) = true) /\
  (accuracy (calculateModelStats passengers) = 100%float <->
     count_correct passengers = List.length passengers).
Proof.
  intros Hn Hlen. cbn [accuracy calculateModelStats]. rewrite Hlen.
  destruct (accuracy_steps _ Hn) as (H100 & _ & Hs).
  pose proof (count_correct_le passengers) as Hle. pose proof (count_correct_le passengers') as Hle'.
  split; [intros Hlt; apply Hs; lia|]. split.
  - intros Heq. destruct (Nat.eq_dec (count_correct passengers) (List.length passengers)) as [E|Hne];
      [exact E|].
    pose proof (Hs (count_correct passengers) (List.length passengers) ltac:(lia)) as Hlt.
    rewrite Heq, H100, ltb_irrefl in Hlt. discriminate.
  - intros ->. exact H100.
Qed.

Lemma accuracy_strictly_monotone_witness :
  (count_correct (M := predictSurvival_model) sample_passengers <
     count_correct (M := predictSurvival_model) (rev sample_passengers) ->
   PrimFloat.ltb (accuracy (calculateModelStats (M := predictSurvival_model) sample_passengers))
     (accuracy (calculateModelStats (M := predictSurvival_model) (rev sample_passengers))) = true) /\
  (accuracy (calculateModelStats (M := predictSurvival_model) sample_passengers) = 100%float <->
     count_correct (M := predictSurvival_model) sample_passengers = List.length sample_passengers).
Proof. apply accuracy_strictly_monotone; [unfold max_rows; cbn; lia | reflexivity]. Defined.

(** C19: for every scorer and every non-empty data set of at most [max_rows]
    records, the accuracy the summariser computes in floating point is a
    number between 0 and 100 (never NaN, never above 100 through rounding). *)
Theorem accuracy_within_percent `{M : SurvivalModel} (passengers : list Passenger) :
  1 <= List.length passengers <= max_rows ->
  PrimFloat.leb 0 (accuracy (calculateModelStats passengers)) = true /\
  PrimFloat.leb (accuracy (calculateModelStats passengers)) 100 = true.
Proof.
  intros Hn. apply andb_true_iff. cbn [accuracy calculateModelStats].
  apply percent_ok_counts; [exact Hn | apply count_correct_le].
Qed.

Lemma accuracy_within_percent_witness :
  PrimFloat.leb 0 (accuracy (calculateModelStats (M := predictSurvival_model) sample_passengers)) = true /\
  PrimFloat.leb (accuracy (calculateModelStats (M := predictSurvival_model) sample_passengers)) 100 = true.
Proof. apply accuracy_within_percent. unfold max_rows. simpl. lia. Defined.

(** C20: for every scorer and every data set of at most [max_rows] records,
    the accuracy is NaN exactly when the data set is empty: [0 / 0 * 100] is
    computed with no guard (the page shows [NaN%]), and no non-empty data set
    gives NaN. *)
Theorem accuracy_nan_iff_empty `{M : SurvivalModel} (passengers : list Passenger) :
  List.length passengers <= max_rows ->
  is_nan (accuracy (calculateModelStats passengers)) = true <-> passengers = [].
Proof.
  intros Hn. split.
  - intros Hnan. destruct passengers as [|p ps]; [reflexivity|]. exfalso.
    pose proof (percent_ok_counts (List.length (p :: ps)) (count_correct (p :: ps))
                  ltac:(cbn [List.length] in *; lia) (count_correct_le (p :: ps))) as Hok.
    apply andb_true_iff in Hok as [H0 _]. apply leb0_not_nan in H0.
    cbn [accuracy calculateModelStats] in Hnan. congruence.
  - intros ->. vm_compute. reflexivity.
Qed.

Lemma accuracy_nan_iff_empty_witness :
  is_nan (accuracy (calculateModelStats (M := predictSurvival_model) [])) = true <-> @nil Passenger = [].
Proof. apply accuracy_nan_iff_empty. unfold max_rows. cbn. lia. Defined.

(** C21: for every scorer, a record whose [Survived] label is neither 0 nor 1
    (or is absent) is never counted as a correct prediction: the correct
    predictions are at most the labelled records, and a data set of 1 to
    [max_rows] records none of which is labelled shows an accuracy of exactly
    0, whatever the predictions. *)
Theorem unlabelled_count_as_wrong `{M : SurvivalModel} (passengers : list Passenger) :
  count_correct passengers <= List.length (filter is_labelled passengers) /\
  (1 <= List.length passengers <= max_rows -> filter is_labelled passengers = [] ->
   accuracy (calculateModelStats passengers) = 0%float).
Proof.
  pose proof (count_correct_labelled passengers) as Hle. split; [exact Hle|].
  intros Hn Hnone. rewrite Hnone in Hle. cbn [List.length] in Hle.
  cbn [accuracy calculateModelStats]. replace (count_correct passengers) with 0 by lia.
  exact (proj1 (proj2 (accuracy_steps _ Hn))).
Qed.
