(* ===== verification/App.v ===== *)
(** * The component: its state and handlers (TitanicPredictor.tsx, lines 26-69, 200-211, 278-379)

    The React state of lines 37-50 is the record [AppState]; every way the
    state changes is an [event]: the outcome of the one-shot [loadData] effect
    (lines 53-69: the fetch and [response.text()] either resolve, carrying the
    text, or reject), the [onChange] handlers of the seven form fields (each
    [setInput({...input, field: parse(e.target.value)})]) and the click on
    "Predict Survival" ([handlePredict], lines 200-211).  [app_step] is one
    handler run to completion; it returns [None] for an event that cannot
    happen in that state: while [loading] only the loading screen is rendered
    (lines 213-222), so no form event exists, and the effect runs once, so no
    load event happens after loading ended.  [reachable] is the set of states
    of a session, by rule induction over the events. *)

From Stdlib Require Import ZArith List String Ascii Bool Lia QArith Floats.
From stdpp Require Import base gmap strings.
From S2P Require Import Prelude JsRuntime Scorer CsvParser Summarizer.
Import ListNotations.
#[local] Open Scope nat_scope.

#[local] Set Warnings "-inexact-float".

Record PredictionInput : Type := mkPredictionInput {
  pclass : float;
  sex : string;
  age : float;
  sibsp : float;
  parch : float;
  fare : float;
  embarked : string
}.

Record AppState : Type := mkAppState {
  data : list (gmap string jsval);
  modelStats : option ModelStats;
  prediction : option Prediction;
  loading : bool;
  input : PredictionInput
}.

(** Lines 42-50. *)
Definition initial_input : PredictionInput :=
  {| pclass := 3; sex := "male"; age := 30; sibsp := 0; parch := 0; fare := 15; embarked := "S" |}.

(** Lines 37-50. *)
Definition initial_state : AppState :=
  {| data := []; modelStats := None; prediction := None; loading := true; input := initial_input |}.

Inductive event : Type :=
| LoadSucceeded (csvText : string)
| LoadFailed
| ChangePclass (value : string)
| ChangeSex (value : string)
| ChangeAge (value : string)
| ChangeFare (value : string)
| ChangeSibsp (value : string)
| ChangeParch (value : string)
| ChangeEmbarked (value : string)
| ClickPredict.

(** The object [handlePredict] passes to [predictSurvival] (lines 201-209). *)
Definition input_passenger (i : PredictionInput) : Passenger :=
  {| PassengerId := None; Survived := None; Pclass := Some (pclass i); Name := None;
     Sex := Some (sex i); Age := Some (Some (age i)); SibSp := Some (sibsp i);
     Parch := Some (parch i); Ticket := None; Fare := Some (Some (fare i)); Cabin := None;
     Embarked := Some (embarked i) |}.

Definition set_input (s : AppState) (i : PredictionInput) : AppState :=
  {| data := data s; modelStats := modelStats s; prediction := prediction s;
     loading := loading s; input := i |}.

(** The successful path of [loadData] (lines 57-61): [setData(parsedData)],
    [calculateModelStats(parsedData)] and its [setModelStats], [setLoading(false)]. *)
Definition loadData_ok (s : AppState) (csvText : string) : AppState :=
  let parsedData := parseCSV csvText in
  {| data := parsedData;
     modelStats := Some (calculateModelStats (M := predictSurvival_model)
                           (map passenger_of_object parsedData));
     prediction := prediction s; loading := false; input := input s |}.

(** The [catch] of [loadData] (lines 62-65). *)
Definition loadData_failed (s : AppState) : AppState :=
  {| data := data s; modelStats := modelStats s; prediction := prediction s;
     loading := false; input := input s |}.

(** [handlePredict] (lines 200-211). *)
Definition handlePredict (s : AppState) : AppState :=
  let result := predictSurvival (input_passenger (input s)) in
  {| data := data s; modelStats := modelStats s; prediction := Some result;
     loading := loading s; input := input s |}.

Definition with_pclass (i : PredictionInput) (v : float) : PredictionInput :=
  {| pclass := v; sex := sex i; age := age i; sibsp := sibsp i; parch := parch i;
     fare := fare i; embarked := embarked i |}.

Definition with_sex_input (i : PredictionInput) (v : string) : PredictionInput :=
  {| pclass := pclass i; sex := v; age := age i; sibsp := sibsp i; parch := parch i;
     fare := fare i; embarked := embarked i |}.

Definition with_age (i : PredictionInput) (v : float) : PredictionInput :=
  {| pclass := pclass i; sex := sex i; age := v; sibsp := sibsp i; parch := parch i;
     fare := fare i; embarked := embarked i |}.

Definition with_fare (i : PredictionInput) (v : float) : PredictionInput :=
  {| pclass := pclass i; sex := sex i; age := age i; sibsp := sibsp i; parch := parch i;
     fare := v; embarked := embarked i |}.

Definition with_sibsp (i : PredictionInput) (v : float) : PredictionInput :=
  {| pclass := pclass i; sex := sex i; age := age i; sibsp := v; parch := parch i;
     fare := fare i; embarked := embarked i |}.

Definition with_parch (i : PredictionInput) (v : float) : PredictionInput :=
  {| pclass := pclass i; sex := sex i; age := age i; sibsp := sibsp i; parch := v;
     fare := fare i; embarked := embarked i |}.

Definition with_embarked (i : PredictionInput) (v : string) : PredictionInput :=
  {| pclass := pclass i; sex := sex i; age := age i; sibsp := sibsp i; parch := parch i;
     fare := fare i; embarked := v |}.

(** The [onChange] handlers: lines 280, 294, 311, 324, 340, 353, 365. *)
Definition form_handler (s : AppState) (e : event) : AppState :=
  let i := input s in
  match e with
  | ChangePclass v => set_input s (with_pclass i (parseInt v))
  | ChangeSex v => set_input s (with_sex_input i v)
  | ChangeAge v => set_input s (with_age i (parseInt v))
  | ChangeFare v => set_input s (with_fare i (parseFloat v))
  | ChangeSibsp v => set_input s (with_sibsp i (parseInt v))
  | ChangeParch v => set_input s (with_parch i (parseInt v))
  | ChangeEmbarked v => set_input s (with_embarked i v)
  | ClickPredict => handlePredict s
  | _ => s
  end.

Definition is_load_event (e : event) : bool :=
  match e with LoadSucceeded _ | LoadFailed => true | _ => false end.

Definition app_step (s : AppState) (e : event) : option AppState :=
  if loading s then
    match e with
    | LoadSucceeded t => Some (loadData_ok s t)
    | LoadFailed => Some (loadData_failed s)
    | _ => None
    end
  else if is_load_event e then None
  else Some (form_handler s e).

(** A session: the events in order, from the initial state. *)
Fixpoint run_events (s : AppState) (es : list event) : option AppState :=
  match es with
  | [] => Some s
  | e :: es' => match app_step s e with Some s' => run_events s' es' | None => None end
  end.

Inductive reachable : AppState -> Prop :=
| reachable_init : reachable initial_state
| reachable_step s e s' : reachable s -> app_step s e = Some s' -> reachable s'.

(** ** The invariant of a session *)

(** A displayed prediction is the scorer's result on some form input; the
    statistics, once present, are those of the loaded data; while loading,
    nothing is loaded, computed or predicted yet. *)
Definition app_inv (s : AppState) : Prop :=
  (forall pr, prediction s = Some pr -> exists i, pr = predictSurvival (input_passenger i)) /\
  (forall st, modelStats s = Some st ->
     st = calculateModelStats (M := predictSurvival_model) (map passenger_of_object (data s))) /\
  (loading s = true -> data s = [] /\ modelStats s = None /\ prediction s = None).

(** The state after a sequence of events (the initial state if one of them
    cannot happen). *)
Definition session_after (es : list event) : AppState :=
  match run_events initial_state es with Some s => s | None => initial_state end.

(** The form field an event edits (0 to 6 in the order of [PredictionInput]),
    if it is an [onChange] event. *)
Definition edit_field (e : event) : option nat :=
  match e with
  | ChangePclass _ => Some 0 | ChangeSex _ => Some 1 | ChangeAge _ => Some 2
  | ChangeFare _ => Some 3 | ChangeSibsp _ => Some 4 | ChangeParch _ => Some 5
  | ChangeEmbarked _ => Some 6
  | _ => None
  end.

(** The prediction for the form's initial values. *)
Definition default_prediction : Prediction := predictSurvival (input_passenger initial_input).

Definition sample_csv : string :=
  ("PassengerId,Survived,Pclass,Name,Sex,Age,SibSp,Parch,Ticket,Fare,Cabin,Embarked" ++ LF ++
   "892,0,3," ++ quote_field "Kelly, Mr. James" ++ ",male,34.5,0,0,330911,7.8292,,Q" ++ LF ++
   "893,1,3," ++ quote_field "Wilkes, Mrs. James (Ellen Needs)" ++ ",female,47,1,0,363272,7,,S" ++ LF)%string.

Lemma app_inv_init : app_inv initial_state.
Proof. repeat split; intros; discriminate. Qed.

Lemma form_handler_inv (s : AppState) (e : event) :
  loading s = false -> app_inv s -> app_inv (form_handler s e).
Proof.
  intros L (Hp & Hs & Hl).
  destruct e; cbn [form_handler]; try exact (conj Hp (conj Hs Hl)).
  split; [intros pr [= <-]; eauto | split; [exact Hs | cbn; rewrite L; discriminate]].
Qed.

Lemma app_step_inv (s s' : AppState) (e : event) :
  app_inv s -> app_step s e = Some s' -> app_inv s'.
Proof.
  intros Hinv. pose proof Hinv as (Hp & Hs & Hl). unfold app_step.
  destruct (loading s) eqn:L.
  - destruct (Hl eq_refl) as (Hd & Hm & Hpr).
    destruct e; intros H; try discriminate H; injection H as <-.
    + unfold loadData_ok. split; [|split]; cbn [prediction modelStats loading data].
      * rewrite Hpr. intros pr [=].
      * intros st [= <-]. reflexivity.
      * discriminate.
    + unfold loadData_failed. split; [|split]; cbn [prediction modelStats loading data].
      * rewrite Hpr. intros pr [=].
      * rewrite Hm. intros st [=].
      * discriminate.
  - destruct (is_load_event e); [discriminate|]. intros [= <-]. now apply form_handler_inv.
Qed.

Lemma reachable_inv (s : AppState) : reachable s -> app_inv s.
Proof.
  induction 1 as [|s e s' _ IH Hstep]; [exact app_inv_init|].
  exact (app_step_inv s s' e IH Hstep).
Qed.

Lemma run_events_reachable (s : AppState) (es : list event) (s' : AppState) :
  reachable s -> run_events s es = Some s' -> reachable s'.
Proof.
  revert s. induction es as [|e es IH]; intros s Hr Hrun; cbn in Hrun.
  - now injection Hrun as <-.
  - destruct (app_step s e) as [t|] eqn:E; [|discriminate].
    exact (IH t (reachable_step s e t Hr E) Hrun).
Qed.

Lemma session_after_reachable (es : list event) : reachable (session_after es).
Proof.
  unfold session_after. destruct (run_events initial_state es) as [s|] eqn:E; [|constructor].
  exact (run_events_reachable initial_state es s reachable_init E).
Qed.

Lemma form_handler_stats (s : AppState) (e : event) : modelStats (form_handler s e) = modelStats s.
Proof. destruct e; reflexivity. Qed.

(** Events that edit no field leave the input as it is and show, if anything,
    the scorer's verdict on it. *)
Lemma step_without_edit (s s' : AppState) (e : event) :
  edit_field e = None -> app_step s e = Some s' ->
  input s' = input s /\
  (prediction s' = prediction s \/ prediction s' = Some (predictSurvival (input_passenger (input s)))).
Proof.
  intros He. unfold app_step. destruct (loading s).
  - destruct e; intros H; try discriminate H; injection H as <-; split; auto.
  - destruct (is_load_event e); [discriminate|]. intros [= <-].
    destruct e; try discriminate He; split; auto.
Qed.

(** A load outcome is accepted only while loading. *)
Lemma app_step_load (s s' : AppState) (text : string) :
  app_step s (LoadSucceeded text) = Some s' -> loading s = true /\ s' = loadData_ok s text.
Proof. unfold app_step. destruct (loading s); [intros [= <-]; auto | discriminate]. Qed.

(** ** Theorems *)

(** C22: in every state of a session, a prediction on display is a finite
    probability in [0, 1] with the verdict "survived" exactly when it exceeds
    0.5. *)
Theorem displayed_prediction_sound (s : AppState) (pr : Prediction) :
  reachable s -> prediction s = Some pr ->
  (exists q, float_to_Q (probability pr) = Some q /\ (0 <= q <= 1)%Q) /\
  survived pr = PrimFloat.ltb 0.5 (probability pr).
Proof.
  intros Hr Hp. destruct (reachable_inv s Hr) as (Hpred & _ & _).
  destruct (Hpred pr Hp) as [i ->]. split; [|reflexivity].
  apply float_in_Q_spec, prob_in_unit_all.
Qed.

Lemma displayed_prediction_sound_witness :
  (exists q, float_to_Q (probability {| probability := 0.1; survived := false |}) = Some q /\ (0 <= q <= 1)%Q) /\
  survived {| probability := 0.1; survived := false |} =
    PrimFloat.ltb 0.5 (probability {| probability := 0.1; survived := false |}).
Proof.
  apply (displayed_prediction_sound (session_after [LoadFailed; ClickPredict])).
  - apply session_after_reachable.
  - vm_compute. reflexivity.
Defined.

(** C23: in every state of a session, statistics on display are those of the
    data that was loaded, and they are only ever present after loading
    ended. *)
Theorem displayed_stats_match_data (s : AppState) (st : ModelStats) :
  reachable s -> modelStats s = Some st ->
  st = calculateModelStats (M := predictSurvival_model) (map passenger_of_object (data s)) /\
  loading s = false.
Proof.
  intros Hr Hst. destruct (reachable_inv s Hr) as (_ & Hs & Hl). split; [exact (Hs st Hst)|].
  destruct (loading s) eqn:L; [|reflexivity].
  destruct (Hl eq_refl) as (_ & Hm & _). congruence.
Qed.

Lemma displayed_stats_match_data_witness :
  calculateModelStats (M := predictSurvival_model) (map passenger_of_object (parseCSV sample_csv)) =
    calculateModelStats (M := predictSurvival_model)
      (map passenger_of_object (data (session_after [LoadSucceeded sample_csv]))) /\
  loading (session_after [LoadSucceeded sample_csv]) = false.
Proof.
  apply displayed_stats_match_data.
  - apply session_after_reachable.
  - vm_compute. reflexivity.
Defined.

(** C24: every handler leaves the page out of its loading state, and while
    loading only the outcome of the data load is accepted. *)
Theorem step_leaves_loading (s s' : AppState) (e : event) :
  app_step s e = Some s' -> loading s' = false /\ (loading s = true -> is_load_event e = true).
Proof.
  unfold app_step. destruct (loading s) eqn:L.
  - destruct e; intros H; try discriminate H; injection H as <-; split; reflexivity.
  - destruct (is_load_event e) eqn:E; [discriminate|]. intros [= <-].
    split; [|discriminate]. destruct e; cbn; assumption.
Qed.

Lemma step_leaves_loading_witness :
  loading (loadData_ok initial_state sample_csv) = false /\
  (loading initial_state = true -> is_load_event (LoadSucceeded sample_csv) = true).
Proof. apply (step_leaves_loading initial_state _ (LoadSucceeded sample_csv)). reflexivity. Defined.

(** C25: after a failed load no statistics are ever shown, whatever the user
    does next. *)
Theorem failed_load_no_stats (es : list event) (s : AppState) :
  run_events initial_state (LoadFailed :: es) = Some s -> modelStats s = None.
Proof.
  assert (Ht : forall t, loading t = false -> modelStats t = None ->
               forall s, run_events t es = Some s -> modelStats s = None).
  { induction es as [|e es IH]; intros t L M s' H; cbn in H; [now injection H as <-|].
    unfold app_step in H. rewrite L in H. destruct (is_load_event e) eqn:E; [discriminate|].
    apply (IH (form_handler t e)); [destruct e; cbn; assumption | now rewrite form_handler_stats | exact H]. }
  intros H. cbn in H. exact (Ht (loadData_failed initial_state) eq_refl eq_refl s H).
Qed.

Lemma failed_load_no_stats_witness :
  modelStats (session_after [LoadFailed; ChangeSex "female"; ClickPredict]) = None.
Proof. apply (failed_load_no_stats [ChangeSex "female"; ClickPredict]). vm_compute. reflexivity. Defined.

(** C26: until the user edits the form, whatever loads and clicks happen,
    the form keeps its initial values (third class, male, 30, alone, fare 15)
    and the only verdict the page can show is the scorer's for them: a
    probability of 0.1 and "did not survive", the spec's first scenario. *)
Theorem untouched_form_default_verdict (es : list event) (s : AppState) :
  Forall (fun e => edit_field e = None) es -> run_events initial_state es = Some s ->
  input s = initial_input /\
  forall pr, prediction s = Some pr -> pr = {| probability := 0.1; survived := false |}.
Proof.
  assert (Hdef : default_prediction = {| probability := 0.1; survived := false |})
    by (vm_compute; reflexivity).
  assert (Hgen : forall t, input t = initial_input ->
            (forall pr, prediction t = Some pr -> pr = default_prediction) ->
            forall es s, Forall (fun e => edit_field e = None) es -> run_events t es = Some s ->
            input s = initial_input /\ forall pr, prediction s = Some pr -> pr = default_prediction).
  { intros t Hi Hp es0. revert t Hi Hp. induction es0 as [|e es0 IH]; intros t Hi Hp s0 Hall Hrun;
      cbn in Hrun; [injection Hrun as <-; auto|].
    inversion Hall as [|? ? He Hrest]; subst.
    destruct (app_step t e) as [t'|] eqn:Hstep; [|discriminate].
    destruct (step_without_edit t t' e He Hstep) as [Hi' [Hp'|Hp']].
    - apply (IH t'); [congruence | rewrite Hp'; exact Hp | exact Hrest | exact Hrun].
    - apply (IH t'); [congruence | | exact Hrest | exact Hrun].
      rewrite Hp', Hi. intros pr [= <-]. reflexivity. }
  intros Hall Hrun. rewrite <- Hdef.
  exact (Hgen initial_state eq_refl (fun pr H => ltac:(discriminate H)) es s Hall Hrun).
Qed.

Lemma untouched_form_default_verdict_witness :
  input (session_after [LoadFailed; ClickPredict]) = initial_input /\
  forall pr, prediction (session_after [LoadFailed; ClickPredict]) = Some pr ->
    pr = {| probability := 0.1; survived := false |}.
Proof.
  apply (untouched_form_default_verdict [LoadFailed; ClickPredict]);
    [repeat constructor | vm_compute; reflexivity].
Defined.

(** C27: each [onChange] handler updates its own field of the input and
    nothing else ([{...input, field: value}]): in every state, two edits of
    different fields give the same state in either order, so the values the
    user enters do not depend on the order of the fields. *)
Theorem form_edits_commute (s : AppState) (e1 e2 : event) (f1 f2 : nat) :
  edit_field e1 = Some f1 -> edit_field e2 = Some f2 -> f1 <> f2 ->
  run_events s [e1; e2] = run_events s [e2; e1].
Proof.
  intros H1 H2 Hne.
  destruct e1, e2; try discriminate H1; try discriminate H2;
    injection H1 as <-; injection H2 as <-; try (exfalso; lia);
    cbn [run_events]; unfold app_step; destruct (loading s) eqn:L; cbn; rewrite ?L; reflexivity.
Qed.

Lemma form_edits_commute_witness :
  run_events (session_after [LoadFailed]) [ChangeSex "female"; ChangeAge "10"] =
    run_events (session_after [LoadFailed]) [ChangeAge "10"; ChangeSex "female"].
Proof. apply (form_edits_commute _ _ _ 1 2); [reflexivity | reflexivity | lia]. Defined.

