(* ===== verification/View.v ===== *)
(** * Presentation: what the page shows (TitanicPredictor.tsx, lines 213-472)

    The render of the component as a function of its state.  [render] is the
    early return of lines 213-222 (the loading screen) and the page of lines
    224-472 with its two conditional parts: the statistics cards, shown when
    [modelStats] is set (lines 239-262), and the result card, which shows the
    verdict when [prediction] is set and a placeholder otherwise (lines
    390-436).  Only what depends on the state is modelled: texts produced by
    expressions ([toFixed(1)], numbers in JSX, template literals, the ternary
    labels), the colour chosen by the verdict and the width of the bar.  The
    static markup (headings, icons, class names, the bullet before each key
    factor, the About section of lines 440-468) is the same in every state and
    is left out.

    Numbers become text through [toFixed1] and [number_to_string] of
    [JsRuntime]; a JSX child [{x}%] is the text of [x] followed by [%]. *)

From Stdlib Require Import ZArith List String Ascii Bool Lia QArith Qabs Lqa Floats.
From S2P Require Import Prelude JsRuntime Scorer CsvParser Summarizer App.
Import ListNotations.

#[local] Set Warnings "-inexact-float".
#[local] Open Scope nat_scope.
#[local] Open Scope js_scope.

(** ** The page *)

Record StatsPanel : Type := mkStatsPanel {
  accuracy_text : option string;
  total_text : option string;
  survived_text : option string;
  perished_text : option string
}.

Inductive ResultPanel : Type :=
| Placeholder
| Verdict (survived_style : bool) (headline : string) (probability_text : option string)
          (bar_width : float) (factors : list (option string)).

Inductive Screen : Type :=
| LoadingScreen
| Dashboard (stats : option StatsPanel) (result : ResultPanel).

(** [{x.toFixed(1)}%]. *)
Definition percent_text (x : float) : option string :=
  option_map (fun t => (t ++ "%")%string) (toFixed1 x).

(** [{n}] for a count. *)
Definition count_text (n : nat) : option string := number_to_string (float_of_nat n).

(** The four cards of lines 240-261. *)
Definition stats_panel (st : ModelStats) : StatsPanel :=
  {| accuracy_text := percent_text (accuracy st);
     total_text := count_text (totalPassengers st);
     survived_text := count_text (survivedCount st);
     perished_text := count_text (deathCount st) |}.

(** The key factors, lines 424-427: they describe the form's current input. *)
Definition gender_factor (i : PredictionInput) : string :=
  ("Gender: " ++ (if sex i === "female" then "Female (higher survival rate)"
                  else "Male (lower survival rate)"))%string.

Definition class_factor (i : PredictionInput) : string :=
  ("Class: " ++ (if pclass i === 1%float then "1st Class (highest survival)"
                 else if pclass i === 2%float then "2nd Class (moderate survival)"
                 else "3rd Class (lowest survival)"))%string.

Definition age_factor (i : PredictionInput) : string :=
  ("Age: " ++ (if PrimFloat.ltb (age i) 16 then "Child (higher survival)"
               else if PrimFloat.ltb 60 (age i) then "Elderly (lower survival)"
               else "Adult"))%string.

Definition family_factor (i : PredictionInput) : option string :=
  if (sibsp i + parch i)%float === 0%float then Some "Family: Traveling alone"%string
  else option_map (fun t => ("Family: Family of " ++ t)%string)
                  (number_to_string (sibsp i + parch i + 1)%float).

Definition key_factors (i : PredictionInput) : list (option string) :=
  [Some (gender_factor i); Some (class_factor i); Some (age_factor i); family_factor i].

(** The result card, lines 390-436. *)
Definition result_panel (pr : option Prediction) (i : PredictionInput) : ResultPanel :=
  match pr with
  | None => Placeholder
  | Some p =>
      Verdict (survived p)
              (if survived p then "SURVIVED" else "DID NOT SURVIVE")
              (percent_text (probability p * 100)%float)
              (probability p * 100)%float
              (key_factors i)
  end.

(** The component's render: the loading screen while [loading] (lines
    213-222), the page otherwise; [modelStats && ...] and [prediction ? ... : ...]
    test an object against [null]. *)
Definition render (s : AppState) : Screen :=
  if loading s then LoadingScreen
  else Dashboard (option_map stats_panel (modelStats s)) (result_panel (prediction s) (input s)).

(** ** Checks and scenarios used by the theorems *)

(** At the rule outcome [r], the page prints the exact percentage of the spec's
    table, followed by [.0%], and the verdict matches it. *)
Definition shows_exact_percent (r : rules) : bool :=
  let pr := prediction_of_score (score_of r) in
  match percent_text (probability pr * 100)%float with
  | Some t => String.eqb t (decimal_string (exact_probability r) ++ ".0%")%string &&
              Bool.eqb (survived pr) (50 <? exact_probability r)%Z
  | None => false
  end.

Definition header_only_csv : string := "PassengerId,Survived,Pclass,Name,Sex,Age,SibSp,Parch,Ticket,Fare,Cabin,Embarked".

(** ** Lemmas *)

Lemma exact_probability_bounds (r : rules) : (0 <= exact_probability r <= 100)%Z.
Proof. unfold exact_probability. lia. Qed.

Lemma shows_exact_percent_all (r : rules) : shows_exact_percent r = true.
Proof. solve_by_enum (forall_rules shows_exact_percent). Qed.

(** The result card of a prediction the scorer made. *)
Lemma result_panel_predict (p : Passenger) (i : PredictionInput) :
  exists r, result_panel (Some (predictSurvival p)) i =
    Verdict (50 <? exact_probability r)%Z
            (if (50 <? exact_probability r)%Z then "SURVIVED" else "DID NOT SURVIVE")
            (Some (decimal_string (exact_probability r) ++ ".0%"))%string
            (probability (predictSurvival p) * 100)%float (key_factors i).
Proof.
  exists (rules_of p). pose proof (shows_exact_percent_all (rules_of p)) as H.
  unfold shows_exact_percent in H. rewrite <- predictSurvival_rules in H.
  destruct (percent_text (probability (predictSurvival p) * 100)%float) as [t|] eqn:Ht; [|discriminate].
  apply andb_true_iff in H as [Ht' Hs]. apply String.eqb_eq in Ht' as ->.
  apply Bool.eqb_prop in Hs. cbn [result_panel]. rewrite Ht, Hs. reflexivity.
Qed.

(** A reachable page that is not loading shows the statistics of the data and
    a verdict of the scorer, if any. *)
Lemma render_reachable (s : AppState) (st : option StatsPanel) (rp : ResultPanel) :
  reachable s -> render s = Dashboard st rp ->
  loading s = false /\ st = option_map stats_panel (modelStats s) /\
  (rp = Placeholder \/ exists i, rp = result_panel (Some (predictSurvival (input_passenger i))) (input s)).
Proof.
  intros Hr. unfold render. destruct (loading s); [discriminate|]. intros [= <- <-].
  split; [reflexivity | split; [reflexivity|]].
  destruct (prediction s) as [pr|] eqn:Hp; [right | now left].
  destruct (reachable_inv s Hr) as (Hpred & _). destruct (Hpred pr Hp) as [i ->]. eauto.
Qed.

(** Number::toString of a count below 2^53 prints its decimal numeral, which
    [parseInt] reads back as the count. *)
Lemma count_text_spec (n : nat) :
  (Z.of_nat n < 2 ^ 53)%Z ->
  count_text n = Some (decimal_string (Z.of_nat n)) /\
  parseInt (decimal_string (Z.of_nat n)) = float_of_nat n.
Proof.
  intros Hn. unfold count_text, float_of_nat. split.
  - apply number_to_string_nat. lia.
  - apply parseInt_decimal_string. lia.
Qed.

(** An accuracy that denotes a number in [0, 100] is printed to the nearest
    tenth. *)
Lemma accuracy_text_spec (st : ModelStats) (q : Q) :
  float_to_Q (accuracy st) = Some q -> (0 <= q <= 100)%Q ->
  exists n : Z, accuracy_text (stats_panel st) =
      Some (decimal_string (n / 10) ++ "." ++ digits_string [(n mod 10)%Z] ++ "%")%string /\
    (0 <= n <= 1000)%Z /\ (Qabs (inject_Z n - q * 10) <= 1 # 2)%Q.
Proof.
  intros Hq [H0 H100].
  destruct (toFixed1_spec (accuracy st) q Hq H0) as (n & Ht & Hn & Habs).
  { change (inject_Z (10 ^ 21)) with (1000000000000000000000 # 1). lra. }
  exists n. cbn [stats_panel accuracy_text]. unfold percent_text. rewrite Ht. cbn [option_map].
  rewrite point_one_spec by exact Hn. autorewrite with titanic_rw.
  split; [reflexivity | split; [split; [exact Hn|] | exact Habs]].
  apply Qabs_Qle_condition in Habs as [_ Hup].
  assert (H : (inject_Z n < inject_Z 1001)%Q) by (change (inject_Z 1001) with (1001 # 1); lra).
  rewrite <- Zlt_Qlt in H. lia.
Qed.

(** ** Theorems *)

(** C28: after any successful load, whatever the state it happens in, the
    page shows the statistics cards, and the Total Passengers card prints the
    decimal numeral of the number of line feeds in the trimmed text: one
    record per line after the header, counted exactly. *)
Theorem loaded_total_card (s s' : AppState) (text : string) :
  (Z.of_nat (String.length text) < 2 ^ 53)%Z ->
  app_step s (LoadSucceeded text) = Some s' ->
  exists st rp, render s' = Dashboard (Some st) rp /\
    total_text st =
      Some (decimal_string (Z.of_nat (count_occ ascii_dec (list_ascii_of_string (js_trim text)) newline))).
Proof.
  intros Hn Hstep. destruct (app_step_load s s' text Hstep) as [_ ->].
  do 2 eexists. split; [unfold render, loadData_ok; cbn [loading modelStats option_map]; reflexivity|].
  cbn [stats_panel total_text calculateModelStats totalPassengers]. rewrite length_map, parseCSV_length_count.
  apply count_text_spec.
  pose proof (count_occ_bound ascii_dec newline (list_ascii_of_string (js_trim text))).
  pose proof (js_trim_length text). lia.
Qed.

Lemma loaded_total_card_witness :
  exists st rp, render (loadData_ok initial_state sample_csv) = Dashboard (Some st) rp /\
    total_text st =
      Some (decimal_string (Z.of_nat (count_occ ascii_dec (list_ascii_of_string (js_trim sample_csv)) newline))).
Proof. apply (loaded_total_card initial_state _ sample_csv); [vm_compute; reflexivity | reflexivity]. Defined.

(** C32: on every page of a session, a verdict on display agrees with the
    percentage printed beside it: the page prints a whole percentage [pct]
    between 0 and 100 as [pct.0%], and shows SURVIVED in green exactly when
    [pct] is above 50, DID NOT SURVIVE in red otherwise. *)
Theorem displayed_verdict_consistent (s : AppState) (st : option StatsPanel) (sv : bool)
    (h : string) (t : option string) (w : float) (fs : list (option string)) :
  reachable s -> render s = Dashboard st (Verdict sv h t w fs) ->
  exists pct : Z, (0 <= pct <= 100)%Z /\ t = Some (decimal_string pct ++ ".0%")%string /\
    sv = (50 <? pct)%Z /\ h = (if (50 <? pct)%Z then "SURVIVED" else "DID NOT SURVIVE")%string.
Proof.
  intros Hr Hs. destruct (render_reachable s _ _ Hr Hs) as (_ & _ & [Hp | [i Hp]]); [discriminate|].
  destruct (result_panel_predict (input_passenger i) (input s)) as [r Hv].
  rewrite Hv in Hp. injection Hp as -> -> -> _ _.
  exists (exact_probability r). auto using exact_probability_bounds.
Qed.

Lemma displayed_verdict_consistent_witness :
  exists pct : Z, (0 <= pct <= 100)%Z /\ Some "10.0%"%string = Some (decimal_string pct ++ ".0%")%string /\
    false = (50 <? pct)%Z /\
    "DID NOT SURVIVE"%string = (if (50 <? pct)%Z then "SURVIVED" else "DID NOT SURVIVE")%string.
Proof.
  apply (displayed_verdict_consistent (session_after [LoadFailed; ClickPredict]) None false
           "DID NOT SURVIVE" (Some "10.0%"%string)
           (probability (predictSurvival (input_passenger initial_input)) * 100)%float
           (key_factors initial_input)).
  - apply session_after_reachable.
  - vm_compute. reflexivity.
Defined.

(** C33: the three count cards print the decimal numerals of the total, the
    survivors and the deaths, and [parseInt] reads each of them back as the
    Number value of its count: the cards show the counts exactly, for any
    data set of fewer than 2^53 records. *)
Theorem count_cards_exact `{M : SurvivalModel} (passengers : list Passenger) :
  (Z.of_nat (List.length passengers) < 2 ^ 53)%Z ->
  let st := calculateModelStats passengers in
  total_text (stats_panel st) = Some (decimal_string (Z.of_nat (totalPassengers st))) /\
  survived_text (stats_panel st) = Some (decimal_string (Z.of_nat (survivedCount st))) /\
  perished_text (stats_panel st) = Some (decimal_string (Z.of_nat (deathCount st))) /\
  (forall n, n <= totalPassengers st ->
     parseInt (decimal_string (Z.of_nat n)) = float_of_nat n).
Proof.
  intros Hn st. pose proof (length_filter_le is_survivor passengers) as Hle.
  cbn [st calculateModelStats totalPassengers survivedCount deathCount stats_panel
       total_text survived_text perished_text].
  split; [|split; [|split]]; try (apply count_text_spec; lia).
  intros n _. apply parseInt_decimal_string. lia.
Qed.

Lemma count_cards_exact_witness :
  let st := calculateModelStats (M := predictSurvival_model) sample_passengers in
  total_text (stats_panel st) = Some (decimal_string (Z.of_nat (totalPassengers st))) /\
  survived_text (stats_panel st) = Some (decimal_string (Z.of_nat (survivedCount st))) /\
  perished_text (stats_panel st) = Some (decimal_string (Z.of_nat (deathCount st))) /\
  (forall n, n <= totalPassengers st ->
     parseInt (decimal_string (Z.of_nat n)) = float_of_nat n).
Proof. apply count_cards_exact. vm_compute. reflexivity. Defined.

(** C34: for every scorer and every data set of 1 to [max_rows] records, the
    accuracy card prints [a.d%], where [a] is the decimal numeral of [n / 10]
    and [d] the digit [n mod 10], for an integer [n] between 0 and 1000 within
    one half of ten times the accuracy the summariser computed: the card shows
    that accuracy to the nearest tenth of a percent, never NaN, never above
    100.0%. *)
Theorem accuracy_card_nearest_tenth `{M : SurvivalModel} (passengers : list Passenger) :
  1 <= List.length passengers <= max_rows ->
  exists (n : Z) (q : Q), float_to_Q (accuracy (calculateModelStats passengers)) = Some q /\
    accuracy_text (stats_panel (calculateModelStats passengers)) =
      Some (decimal_string (n / 10) ++ "." ++ digits_string [(n mod 10)%Z] ++ "%")%string /\
    (0 <= n <= 1000)%Z /\ (Qabs (inject_Z n - q * 10) <= 1 # 2)%Q.
Proof.
  intros Hn. pose proof (percent_ok_counts _ _ Hn (count_correct_le passengers)) as Hok.
  apply andb_true_iff in Hok as [H0 H100].
  destruct (leb_percent_Q _ H0 H100) as (q & Hq & Hrange).
  destruct (accuracy_text_spec (calculateModelStats passengers) q Hq Hrange) as (n & Ht & Hb & Ha).
  exists n, q. auto.
Qed.

Lemma accuracy_card_nearest_tenth_witness :
  exists (n : Z) (q : Q),
    float_to_Q (accuracy (calculateModelStats (M := predictSurvival_model) sample_passengers)) = Some q /\
    accuracy_text (stats_panel (calculateModelStats (M := predictSurvival_model) sample_passengers)) =
      Some (decimal_string (n / 10) ++ "." ++ digits_string [(n mod 10)%Z] ++ "%")%string /\
    (0 <= n <= 1000)%Z /\ (Qabs (inject_Z n - q * 10) <= 1 # 2)%Q.
Proof. apply accuracy_card_nearest_tenth. unfold max_rows. cbn. lia. Defined.

(** C35: whatever the state of the page, the user can always get the verdict
    for the values in the form: clicking Predict, after the data load has
    ended if it is still running, shows the scorer's result on the form's
    input, which stays as it was. *)
Theorem prediction_always_reachable (s : AppState) :
  exists es s', run_events s es = Some s' /\ input s' = input s /\
    exists st, render s' = Dashboard st (result_panel (Some (predictSurvival (input_passenger (input s)))) (input s)).
Proof.
  destruct (loading s) eqn:L.
  - exists [LoadFailed; ClickPredict]. cbn. unfold app_step. rewrite L. cbn.
    eexists; split; [reflexivity | split; [reflexivity | eexists; reflexivity]].
  - exists [ClickPredict]. cbn. unfold app_step. rewrite L. cbn.
    eexists; split; [reflexivity | split; [reflexivity|]]. unfold render. cbn. rewrite L. eexists; reflexivity.
Qed.

(** C36: the key factors describe the form, not the scorer's choices: for
    every form input whose age is 0 (or -0) the page lists [Age: Child (higher
    survival)], while the scorer, whose [passenger.Age || 30] replaces 0 by 30,
    gives exactly the verdict and probability of a 30-year-old. *)
Theorem age_zero_labelled_child (i : PredictionInput) :
  is_zero (age i) = true ->
  age_factor i = "Age: Child (higher survival)"%string /\
  predictSurvival (input_passenger i) = predictSurvival (input_passenger (with_age i 30)).
Proof.
  intros Hz. split.
  - unfold age_factor. destruct (is_zero_cases _ Hz) as [-> | ->]; reflexivity.
  - rewrite !predictSurvival_rules. unfold rules_of. cbn [input_passenger Age present with_age].
    unfold or_num. replace (truthy_num (age i)) with false
      by (unfold truthy_num; rewrite Hz; reflexivity).
    reflexivity.
Qed.

Lemma age_zero_labelled_child_witness :
  age_factor (with_age initial_input 0) = "Age: Child (higher survival)"%string /\
  predictSurvival (input_passenger (with_age initial_input 0)) =
    predictSurvival (input_passenger (with_age (with_age initial_input 0) 30)).
Proof. apply age_zero_labelled_child. reflexivity. Defined.

(** C37: an edit of the form never recomputes the verdict, but the key factors
    follow the edited input: in every state after loading, an [onChange] event
    keeps the prediction on display as it was and redraws the result card with
    the factors of the new input, so the card pairs a verdict with factors it
    was not computed from until Predict is clicked again. *)
Theorem stale_verdict_fresh_factors (s : AppState) (e : event) (f : nat) :
  loading s = false -> edit_field e = Some f ->
  exists s', app_step s e = Some s' /\ prediction s' = prediction s /\
    render s' = Dashboard (option_map stats_panel (modelStats s)) (result_panel (prediction s) (input s')).
Proof.
  intros L He. unfold app_step. rewrite L.
  destruct e; try discriminate He; cbn [is_load_event];
    eexists; (split; [reflexivity|]); (split; [reflexivity|]); unfold render; cbn; rewrite L; reflexivity.
Qed.

Lemma stale_verdict_fresh_factors_witness :
  exists s', app_step (session_after [LoadFailed; ClickPredict]) (ChangeSex "female") = Some s' /\
    prediction s' = prediction (session_after [LoadFailed; ClickPredict]) /\
    render s' = Dashboard (option_map stats_panel (modelStats (session_after [LoadFailed; ClickPredict])))
                  (result_panel (prediction (session_after [LoadFailed; ClickPredict])) (input s')).
Proof. apply (stale_verdict_fresh_factors _ _ 1); reflexivity. Defined.

(** C38: loading a text with a header line and no row (no line feed once
    trimmed) succeeds, and the statistics cards then read [NaN%] for the
    accuracy beside counts of 0, whatever the state the load happens in. *)
Theorem empty_data_shows_nan (s s' : AppState) (text : string) :
  count_occ ascii_dec (list_ascii_of_string (js_trim text)) newline = 0 ->
  app_step s (LoadSucceeded text) = Some s' ->
  exists rp, render s' = Dashboard (Some {| accuracy_text := Some "NaN%"%string; total_text := Some "0"%string;
                                            survived_text := Some "0"%string;
                                            perished_text := Some "0"%string |}) rp.
Proof.
  intros Hc Hstep. destruct (app_step_load s s' text Hstep) as [_ ->].
  pose proof (parseCSV_length_count text) as Hl. rewrite Hc in Hl.
  destruct (parseCSV text) as [|o os] eqn:Hp; [|discriminate Hl].
  eexists. unfold render, loadData_ok. cbn [loading modelStats]. rewrite Hp. reflexivity.
Qed.

Lemma empty_data_shows_nan_witness :
  exists rp, render (loadData_ok initial_state header_only_csv) =
    Dashboard (Some {| accuracy_text := Some "NaN%"%string; total_text := Some "0"%string;
                       survived_text := Some "0"%string; perished_text := Some "0"%string |}) rp.
Proof. apply (empty_data_shows_nan initial_state _ header_only_csv); reflexivity. Defined.
